(** * Todo_App: the todo resource handlers over a document collection

    A shallow embedding of [app/models.py], [schemas/todo.py],
    [routes/todo.py] and the validation handler of [app/main.py].

    - Python values stored in documents are the inductive [pyval]; a
      document (a Python [dict]) is a [gmap string pyval].
    - The MongoDB collection is the list of its documents in natural
      order; the handlers run in a state-and-exception monad over it.
    - [datetime.now()] is an input of each handler ([now]), read at most
      once per call, as in the source.
    - The store answers every operation: connection and driver failures
      are outside the model, so the [except] branches of the handlers
      only see exceptions raised by the code itself.
    - A handler's value is the dictionary it returns; its conversion to
      JSON under [response_model] is not modelled.
    - A request to [POST /todos/] is its content-type header and its
      body, which may be empty, undecodable, malformed or JSON text; the
      framework's reading of the body and the validation handler's own
      [request.json()] are both modelled. *)

From stdpp Require Import gmap strings list fin_maps sorting.
From Stdlib Require Import ZArith Ascii DecimalString.

Open Scope Z_scope.

(** ** Python and BSON values *)

(** A naive [datetime.datetime]: its calendar fields. *)
Record datetime := mk_datetime {
  year : Z; month : Z; day : Z;
  hour : Z; minute : Z; second : Z; microsecond : Z
}.

Inductive pyval :=
| VNone
| VBool (b : bool)
| VInt (z : Z)
| VStr (s : string)
| VDate (t : datetime)
| VOid (o : N).

#[global] Instance datetime_eq_dec : EqDecision datetime.
Proof. solve_decision. Defined.

#[global] Instance pyval_eq_dec : EqDecision pyval.
Proof. solve_decision. Defined.

(** A Python [dict] with string keys. *)
Abbreviation dict := (gmap string pyval).

(** [d.get(k, default)] *)
Definition dict_get (d : dict) (k : string) (default : pyval) : pyval :=
  match d !! k with
  | Some v => v
  | None => default
  end.

(** Truth value of a Python object, as tested by [if v:] and [not v]. *)
Definition truthy (v : pyval) : bool :=
  match v with
  | VNone => false
  | VBool b => b
  | VInt z => negb (z =? 0)
  | VStr s => negb (String.eqb s "")
  | VDate _ => true
  | VOid _ => true
  end.

(** ** Rendering values as text: [str(v)] *)

Definition str_int (z : Z) : string := NilZero.string_of_int (Z.to_int z).

Fixpoint zeros (n : nat) : string :=
  match n with
  | O => EmptyString
  | S k => ("0" ++ zeros k)%string
  end.

(** ["%0wd" % z] for a non-negative [z]. *)
Definition zfill (w : nat) (z : Z) : string :=
  let s := str_int z in
  (zeros (w - String.length s) ++ s)%string.

(** [datetime.__str__] is [isoformat(sep=' ')]; the fraction is printed
    only when [microsecond] is not zero. *)
Definition datetime_str (t : datetime) : string :=
  let fraction :=
    if microsecond t =? 0 then EmptyString
    else ("." ++ zfill 6 (microsecond t))%string in
  (zfill 4 (year t) ++ "-" ++ zfill 2 (month t) ++ "-" ++ zfill 2 (day t)
   ++ " " ++ zfill 2 (hour t) ++ ":" ++ zfill 2 (minute t) ++ ":"
   ++ zfill 2 (second t) ++ fraction)%string.

Module ObjectId.

(** A 12-byte BSON object id, kept as the number its 24 hexadecimal
    digits denote. *)
Definition t := N.

Definition hex_value (c : ascii) : option N :=
  let n := N_of_ascii c in
  if ((48 <=? n) && (n <=? 57))%N then Some (n - 48)%N
  else if ((97 <=? n) && (n <=? 102))%N then Some (n - 87)%N
  else if ((65 <=? n) && (n <=? 70))%N then Some (n - 55)%N
  else None.

Fixpoint from_hex (s : string) (acc : N) : option N :=
  match s with
  | EmptyString => Some acc
  | String c s' =>
      match hex_value c with
      | Some d => from_hex s' (16 * acc + d)%N
      | None => None
      end
  end.

(** [ObjectId(oid)] for a [str] argument: exactly 24 hexadecimal digits,
    otherwise [bson.errors.InvalidId] (here [None]). *)
Definition parse (oid : string) : option t :=
  if (String.length oid =? 24)%nat then from_hex oid 0%N else None.

Definition hex_digit (n : N) : ascii :=
  if (n <? 10)%N then ascii_of_N (48 + n) else ascii_of_N (87 + n).

Fixpoint to_hex (digits : nat) (n : N) (acc : string) : string :=
  match digits with
  | O => acc
  | S k => to_hex k (n / 16)%N (String (hex_digit (n mod 16)%N) acc)
  end.

(** [str(oid)]: 24 lower-case hexadecimal digits. *)
Definition str (o : t) : string := to_hex 24 o EmptyString.

End ObjectId.

Definition py_str (v : pyval) : string :=
  match v with
  | VNone => "None"
  | VBool true => "True"
  | VBool false => "False"
  | VInt z => str_int z
  | VStr s => s
  | VDate t => datetime_str t
  | VOid o => ObjectId.str o
  end.

(** ** Exceptions and the handler monad *)

Inductive exn :=
| KeyError (key : string)
| HTTPException (status_code : Z) (detail : string).

(** [str(e)] *)
Definition exn_str (e : exn) : string :=
  match e with
  | KeyError key => ("'" ++ key ++ "'")%string
  | HTTPException status_code detail =>
      (str_int status_code ++ ": " ++ detail)%string
  end.

(** A handler reads and writes the collection and may raise: writes made
    before a [raise] stay in the collection. *)
Definition M (A : Type) : Type := list dict → (exn + A) * list dict.

#[global] Instance M_ret : MRet M := λ A (a : A) c, (inr a, c).

#[global] Instance M_bind : MBind M := λ A B (f : A → M B) (m : M A) c,
  match m c with
  | (inr a, c') => f a c'
  | (inl e, c') => (inl e, c')
  end.

Definition raise {A} (e : exn) : M A := λ c, (inl e, c).

(** [try: m  except Exception as e: h e] *)
Definition try_except {A} (m : M A) (h : exn → M A) : M A := λ c,
  match m c with
  | (inr a, c') => (inr a, c')
  | (inl e, c') => h e c'
  end.

(** A pure computation that may raise. *)
Definition lift {A} (r : exn + A) : M A := λ c, (r, c).

(** ** The document collection *)

Module Collection.

(** A query filter [{k1: v1, ...}] over non-null values matches the
    documents that carry each of these fields with that value. *)
Definition matches (q d : dict) : bool := bool_decide (q ⊆ d).

Definition find (q : dict) (c : list dict) : list dict :=
  List.filter (matches q) c.

Definition find_one (q : dict) (c : list dict) : option dict :=
  head (find q c).

Definition count_documents (q : dict) (c : list dict) : Z :=
  Z.of_nat (length (find q c)).

(** [update_one(q, {"$set": upd})]: the first match gets the fields of
    [upd], its other fields stay. *)
Fixpoint update_one (q upd : dict) (c : list dict) : list dict :=
  match c with
  | [] => []
  | d :: c' =>
      if matches q d then (upd ∪ d) :: c' else d :: update_one q upd c'
  end.

Fixpoint delete_one (q : dict) (c : list dict) : list dict :=
  match c with
  | [] => []
  | d :: c' => if matches q d then c' else d :: delete_one q c'
  end.

Definition oid_of (d : dict) : N :=
  match d !! "_id" with
  | Some (VOid o) => o
  | _ => 0%N
  end.

(** The id the driver generates for a document inserted without one: an
    [ObjectId] that no document of the collection carries. *)
Definition new_ObjectId (c : list dict) : ObjectId.t :=
  N.succ (foldr N.max 0%N (oid_of <$> c)).

(** [insert_one(doc)] for a document without ["_id"]: returns
    [inserted_id] and the collection with the document appended. *)
Definition insert_one (doc : dict) (c : list dict) : pyval * list dict :=
  let inserted_id := VOid (new_ObjectId c) in
  (inserted_id, c ++ [<["_id" := inserted_id]> doc]).

End Collection.

Definition collection_find_one (q : dict) : M (option dict) :=
  λ c, (inr (Collection.find_one q c), c).

Definition collection_find (q : dict) : M (list dict) :=
  λ c, (inr (Collection.find q c), c).

Definition collection_count_documents (q : dict) : M Z :=
  λ c, (inr (Collection.count_documents q c), c).

Definition collection_update_one (q upd : dict) : M unit :=
  λ c, (inr (), Collection.update_one q upd c).

Definition collection_delete_one (q : dict) : M unit :=
  λ c, (inr (), Collection.delete_one q c).

Definition collection_insert_one (doc : dict) : M pyval :=
  λ c, let '(inserted_id, c') := Collection.insert_one doc c in
       (inr inserted_id, c').

(** ** BSON comparison order, used by [cursor.sort] *)

(** Null < numbers < strings < ObjectId < booleans < dates. *)
Definition bson_rank (v : pyval) : Z :=
  match v with
  | VNone => 1
  | VInt _ => 2
  | VStr _ => 3
  | VOid _ => 4
  | VBool _ => 5
  | VDate _ => 6
  end.

Definition lex (c1 c2 : comparison) : comparison :=
  match c1 with
  | Eq => c2
  | _ => c1
  end.

Definition datetime_compare (a b : datetime) : comparison :=
  lex (year a ?= year b)
  (lex (month a ?= month b)
  (lex (day a ?= day b)
  (lex (hour a ?= hour b)
  (lex (minute a ?= minute b)
  (lex (second a ?= second b)
       (microsecond a ?= microsecond b)))))).

Definition bson_compare (a b : pyval) : comparison :=
  match a, b with
  | VNone, VNone => Eq
  | VInt x, VInt y => x ?= y
  | VStr x, VStr y => String.compare x y
  | VOid x, VOid y => (x ?= y)%N
  | VBool x, VBool y => Bool.compare x y
  | VDate x, VDate y => datetime_compare x y
  | _, _ => bson_rank a ?= bson_rank b
  end.

Module Cursor.

(** The value a document is sorted on: a missing field sorts as null. *)
Definition sort_key (k : string) (d : dict) : pyval := dict_get d k VNone.

(** [d1] may stand before [d2] under the sort specification: keys are
    compared in turn, direction [-1] is descending, [1] ascending. *)
Fixpoint before (sort_options : list (string * Z)) (d1 d2 : dict) : bool :=
  match sort_options with
  | [] => true
  | (k, direction) :: rest =>
      match bson_compare (sort_key k d1) (sort_key k d2) with
      | Eq => before rest d1 d2
      | Lt => 0 <? direction
      | Gt => direction <? 0
      end
  end.

Definition sort (sort_options : list (string * Z)) (l : list dict) : list dict :=
  merge_sort (λ d1 d2, Is_true (before sort_options d1 d2)) l.

Definition skip (n : Z) (l : list dict) : list dict := drop (Z.to_nat n) l.

(** [limit(0)] is no limit. *)
Definition limit (n : Z) (l : list dict) : list dict :=
  if n =? 0 then l else take (Z.to_nat n) l.

End Cursor.

(** ** app/models.py *)

Definition create_todo_document (todo_dict : dict) (now : datetime) : exn + dict :=
  match todo_dict !! "title" with
  | None => inl (KeyError "title")
  | Some title =>
      inr {[ "title" := title;
             "description" := dict_get todo_dict "description" (VStr "");
             "completed" := dict_get todo_dict "completed" (VBool false);
             "created_at" := VDate now;
             "updated_at" := VDate now;
             "deleted" := VBool false;
             "deleted_at" := VNone ]}
  end.

(** The argument is [None] or a dictionary; an absent or empty document
    gives [{}]. Otherwise ["id"] is set from ["_id"], which is then
    removed. *)
Definition format_todo_response (todo_document : option dict) : exn + dict :=
  match todo_document with
  | None => inr ∅
  | Some d =>
      if bool_decide (d = ∅) then inr ∅
      else
        match d !! "_id" with
        | None => inl (KeyError "_id")
        | Some _id => inr (delete "_id" (<["id" := VStr (py_str _id)]> d))
        end
  end.

(** ** schemas/todo.py *)

(** One validation failure: the path of the field and the message. *)
Definition error_item : Type := list string * string.

Definition lower_char (c : ascii) : ascii :=
  let n := N_of_ascii c in
  if ((65 <=? n) && (n <=? 90))%N then ascii_of_N (n + 32) else c.

Fixpoint lower (s : string) : string :=
  match s with
  | EmptyString => EmptyString
  | String c s' => String (lower_char c) (lower s')
  end.

(** Field type [str]. *)
Definition validate_str (v : pyval) : string + string :=
  match v with
  | VStr s => inr s
  | _ => inl "Input should be a valid string"
  end.

(** Field type [bool], with the conversions the validator accepts for
    integers and text. *)
Definition validate_bool (v : pyval) : string + bool :=
  match v with
  | VBool b => inr b
  | VInt 0 => inr false
  | VInt 1 => inr true
  | VInt _ => inl "Input should be a valid boolean, unable to interpret input"
  | VStr s =>
      let s := lower s in
      if bool_decide (s ∈ ["1"; "on"; "t"; "true"; "y"; "yes"]) then inr true
      else if bool_decide (s ∈ ["0"; "off"; "f"; "false"; "n"; "no"]) then inr false
      else inl "Input should be a valid boolean, unable to interpret input"
  | _ => inl "Input should be a valid boolean"
  end.

(** Field type [Optional[T]]. *)
Definition validate_optional {A} (validate : pyval → string + A) (v : pyval)
  : string + option A :=
  match v with
  | VNone => inr None
  | _ => match validate v with
         | inr a => inr (Some a)
         | inl msg => inl msg
         end
  end.

Definition field_errors {A} (name : string) (r : string + A) : list error_item :=
  match r with
  | inl msg => [(["body"; name], msg)]
  | inr _ => []
  end.

Module TodoCreate.

Record t := mk {
  title : string;
  description : option string;
  completed : bool
}.

(** Validation of a request body against [TodoBase]: [title] is
    required, [description] defaults to [None] and [completed] to
    [False]. All failures are reported. *)
Definition model_validate (body : dict) : list error_item + t :=
  let r_title :=
    match body !! "title" with
    | None => inl "Field required"
    | Some v => validate_str v
    end in
  let r_description :=
    match body !! "description" with
    | None => inr None
    | Some v => validate_optional validate_str v
    end in
  let r_completed :=
    match body !! "completed" with
    | None => inr false
    | Some v => validate_bool v
    end in
  match r_title, r_description, r_completed with
  | inr title, inr description, inr completed =>
      inr (mk title description completed)
  | _, _, _ =>
      inl (field_errors "title" r_title
           ++ field_errors "description" r_description
           ++ field_errors "completed" r_completed)
  end.

(** [todo.model_dump()]: every field, set or defaulted. *)
Definition model_dump (todo : t) : dict :=
  {[ "title" := VStr (title todo);
     "description" := from_option VStr VNone (description todo);
     "completed" := VBool (completed todo) ]}.

End TodoCreate.

Module TodoUpdate.

(** A field of the update model is either unset (absent from the
    request, its value is the default [None]) or set to the value the
    request carried, which may be [None]. *)
Inductive field (A : Type) :=
| Unset
| Provided (v : option A).
Arguments Unset {A}.
Arguments Provided {A} v.

Record t := mk {
  title : field string;
  description : field string;
  completed : field bool
}.

Definition validate_field {A} (validate : pyval → string + A)
    (o : option pyval) : string + field A :=
  match o with
  | None => inr Unset
  | Some v =>
      match validate_optional validate v with
      | inr x => inr (Provided x)
      | inl msg => inl msg
      end
  end.

Definition model_validate (body : dict) : list error_item + t :=
  let r_title := validate_field validate_str (body !! "title") in
  let r_description := validate_field validate_str (body !! "description") in
  let r_completed := validate_field validate_bool (body !! "completed") in
  match r_title, r_description, r_completed with
  | inr title, inr description, inr completed =>
      inr (mk title description completed)
  | _, _, _ =>
      inl (field_errors "title" r_title
           ++ field_errors "description" r_description
           ++ field_errors "completed" r_completed)
  end.

Definition dump_field {A} (to_py : A → pyval) (name : string) (f : field A)
    (d : dict) : dict :=
  match f with
  | Unset => d
  | Provided v => <[name := from_option to_py VNone v]> d
  end.

(** [todo.model_dump(exclude_unset=True)]: only the fields the request
    carried. *)
Definition model_dump_exclude_unset (todo : t) : dict :=
  dump_field VStr "title" (title todo)
    (dump_field VStr "description" (description todo)
       (dump_field VBool "completed" (completed todo) ∅)).

End TodoUpdate.

Record PaginatedResponse := mk_PaginatedResponse {
  current_page : Z;
  total_pages : Z;
  items_per_page : Z;
  total_items : Z;
  data : list dict
}.

(** ** routes/todo.py *)

Fixpoint format_all (l : list dict) : exn + list dict :=
  match l with
  | [] => inr []
  | todo :: rest =>
      match format_todo_response (Some todo) with
      | inl e => inl e
      | inr r =>
          match format_all rest with
          | inl e => inl e
          | inr rs => inr (r :: rs)
          end
      end
  end.

Definition database_error {A} (e : exn) : M A :=
  raise (HTTPException 500 ("Database error: " ++ exn_str e)).

Definition create_todo (todo : TodoCreate.t) (now : datetime) : M dict :=
  try_except
    (let todo_dict := TodoCreate.model_dump todo in
     todo_document ← lift (create_todo_document todo_dict now);
     inserted_id ← collection_insert_one todo_document;
     created_todo ← collection_find_one {[ "_id" := inserted_id ]};
     lift (format_todo_response created_todo))
    database_error.

(** The handler body, entered once [Query(gt=0)] has accepted
    [items_per_page] and [page_number]. *)
Definition read_todos (include_deleted : bool) (sort_by : option string)
    (items_per_page page_number : Z) : M PaginatedResponse :=
  let query_filter : dict :=
    if include_deleted then ∅ else {[ "deleted" := VBool false ]} in
  total_items ← collection_count_documents query_filter;
  let total_pages := (total_items + items_per_page - 1) `div` items_per_page in
  let skip := (page_number - 1) * items_per_page in
  let sort_options : list (string * Z) :=
    if bool_decide (sort_by = Some "date") then [("created_at", -1)]
    else if bool_decide (sort_by = Some "completed") then [("completed", -1)]
    else [] in
  if bool_decide (skip >= total_items) then
    mret (mk_PaginatedResponse page_number total_pages items_per_page
            total_items [])
  else
    cursor ← collection_find query_filter;
    let cursor :=
      if bool_decide (sort_options ≠ []) then Cursor.sort sort_options cursor
      else cursor in
    let cursor := Cursor.limit items_per_page (Cursor.skip skip cursor) in
    todos ← lift (format_all cursor);
    mret (mk_PaginatedResponse page_number total_pages items_per_page
            total_items todos).

Definition read_todo (todo_id : string) : M dict :=
  match ObjectId.parse todo_id with
  | None => raise (HTTPException 400 "Invalid ID format")
  | Some obj_id =>
      todo ← collection_find_one {[ "_id" := VOid obj_id ]};
      match todo with
      | None => raise (HTTPException 404 "Todo not found")
      | Some todo =>
          if truthy (dict_get todo "deleted" (VBool false)) then
            raise (HTTPException 404 "Todo was deleted")
          else lift (format_todo_response (Some todo))
      end
  end.

(** [{k: v for k, v in d.items() if v is not None}] *)
Definition not_None_items (d : dict) : dict :=
  filter (λ kv, kv.2 ≠ VNone) d.

Definition update_todo (todo_id : string) (todo : TodoUpdate.t)
    (now : datetime) : M dict :=
  match ObjectId.parse todo_id with
  | None => raise (HTTPException 400 "Invalid ID format")
  | Some obj_id =>
      db_todo ← collection_find_one {[ "_id" := VOid obj_id ]};
      match db_todo with
      | None => raise (HTTPException 404 "Todo not found")
      | Some db_todo =>
          if truthy (dict_get db_todo "deleted" (VBool false)) then
            raise (HTTPException 400 "Cannot update deleted todo")
          else
            let update_data : dict :=
              not_None_items (TodoUpdate.model_dump_exclude_unset todo) in
            _ ← (if bool_decide (update_data ≠ ∅) then
                   let update_data := <["updated_at" := VDate now]> update_data in
                   collection_update_one {[ "_id" := VOid obj_id ]} update_data
                 else mret ());
            updated_todo ← collection_find_one {[ "_id" := VOid obj_id ]};
            lift (format_todo_response updated_todo)
      end
  end.

Definition delete_todo (todo_id : string) (permanent : bool)
    (now : datetime) : M dict :=
  match ObjectId.parse todo_id with
  | None => raise (HTTPException 400 "Invalid ID format")
  | Some obj_id =>
      db_todo ← collection_find_one {[ "_id" := VOid obj_id ]};
      match db_todo with
      | None => raise (HTTPException 404 "Todo not found")
      | Some db_todo =>
          try_except
            (_ ← (if permanent then
                    collection_delete_one {[ "_id" := VOid obj_id ]}
                  else
                    collection_update_one {[ "_id" := VOid obj_id ]}
                      {[ "deleted" := VBool true; "deleted_at" := VDate now ]});
             lift (format_todo_response (Some db_todo)))
            database_error
      end
  end.

Definition restore_todo (todo_id : string) : M dict :=
  match ObjectId.parse todo_id with
  | None => raise (HTTPException 400 "Invalid ID format")
  | Some obj_id =>
      db_todo ← collection_find_one {[ "_id" := VOid obj_id ]};
      match db_todo with
      | None => raise (HTTPException 404 "Todo not found")
      | Some db_todo =>
          if negb (truthy (dict_get db_todo "deleted" (VBool false))) then
            raise (HTTPException 400 "Todo is not deleted")
          else
            try_except
              (_ ← collection_update_one {[ "_id" := VOid obj_id ]}
                     {[ "deleted" := VBool false; "deleted_at" := VNone ]};
               restored_todo ← collection_find_one {[ "_id" := VOid obj_id ]};
               lift (format_todo_response restored_todo))
              database_error
      end
  end.

(** ** app/main.py *)

(** A value decoded from JSON text: an object with scalar fields, an
    array of scalars, or a scalar ([null] is [JScalar VNone]). Numbers
    with a fraction and compound values inside objects or arrays are
    outside the model. *)
Inductive json_value :=
| JObject (fields : dict)
| JArray (items : list pyval)
| JScalar (v : pyval).

(** The bytes of a request body, by what decoding them gives: no bytes
    at all, bytes that are not text, text that is not JSON (with the
    position where decoding stops), or JSON text. *)
Inductive payload :=
| NoBody
| Undecodable
| Malformed (pos : Z)
| Json (v : json_value).

(** A request: the value of [request.headers.get("content-type")] and
    the body. *)
Record Request := mk_Request {
  content_type : option string;
  body_bytes : payload
}.

(** [await request.json()]: the decoded body; [None] stands for the
    decoding error it raises on a body that is empty or not JSON. *)
Definition json (request : Request) : option json_value :=
  match body_bytes request with
  | Json v => Some v
  | _ => None
  end.

Inductive content (A : Type) :=
| Value (a : A)
| Detail (detail : string)
| InvalidRequest (error message : string)
                 (validation_errors : list (string * string * json_value)).
Arguments Value {A} a.
Arguments Detail {A} detail.
Arguments InvalidRequest {A} error message validation_errors.

Record JSONResponse (A : Type) := mk_JSONResponse {
  status_code : Z;
  body : content A
}.
Arguments mk_JSONResponse {A} status_code body.
Arguments status_code {A} _.
Arguments body {A} _.

Fixpoint join (sep : string) (parts : list string) : string :=
  match parts with
  | [] => EmptyString
  | [p] => p
  | p :: rest => (p ++ sep ++ join sep rest)%string
  end.

(** The handler of [RequestValidationError]. With the content type
    exactly ["application/json"] it decodes the body again, and raises
    (here [None]) when that fails; with any other content type the
    reported input is [{}]. *)
Definition validation_exception_handler {A} (request : Request)
    (errors : list error_item) : option (JSONResponse A) :=
  let body :=
    if bool_decide (content_type request = Some "application/json")
    then json request else Some (JObject ∅) in
  match body with
  | None => None
  | Some body =>
      let errors :=
        (λ error : error_item, (join " → " error.1, error.2, body))
        <$> errors in
      Some (mk_JSONResponse 400
              (InvalidRequest "Invalid request format"
                 "Your request contains invalid fields. Please check and correct them."
                 errors))
  end.

(** What the application answers for a handler's outcome: its value with
    status 200, the status and detail of an [HTTPException], and a
    server error for any other exception. *)
Definition respond {A} (r : exn + A) : JSONResponse A :=
  match r with
  | inr a => mk_JSONResponse 200 (Value a)
  | inl (HTTPException status_code detail) =>
      mk_JSONResponse status_code (Detail detail)
  | inl (KeyError _) => mk_JSONResponse 500 (Detail "Internal Server Error")
  end.

(** *** How the framework reads and validates the body of a POST *)

(** [str.isspace] on a character of a header value. *)
Definition is_space (c : ascii) : bool :=
  let n := N_of_ascii c in
  (((9 <=? n) && (n <=? 13)) || ((28 <=? n) && (n <=? 32))
   || (n =? 133) || (n =? 160))%N.

Fixpoint lstrip (s : string) : string :=
  match s with
  | EmptyString => EmptyString
  | String c s' => if is_space c then lstrip s' else s
  end.

Fixpoint rstrip (s : string) : string :=
  match s with
  | EmptyString => EmptyString
  | String c s' =>
      match rstrip s' with
      | EmptyString => if is_space c then EmptyString else String c EmptyString
      | r => String c r
      end
  end.

(** [s.strip()] *)
Definition strip (s : string) : string := lstrip (rstrip s).

(** [s.partition(sep)[0]]: the text before the first [sep]. *)
Fixpoint partition_before (sep : ascii) (s : string) : string :=
  match s with
  | EmptyString => EmptyString
  | String c s' =>
      if Ascii.eqb c sep then EmptyString
      else String c (partition_before sep s')
  end.

(** [s.partition(sep)[2]]: the text after the first [sep]. *)
Fixpoint partition_after (sep : ascii) (s : string) : string :=
  match s with
  | EmptyString => EmptyString
  | String c s' => if Ascii.eqb c sep then s' else partition_after sep s'
  end.

(** [s.count(c)] *)
Fixpoint count_char (c : ascii) (s : string) : nat :=
  match s with
  | EmptyString => O
  | String x s' => ((if Ascii.eqb x c then 1 else 0) + count_char c s')%nat
  end.

(** [s.endswith(suffix)] *)
Definition endswith (s suffix : string) : bool :=
  let n := String.length s in
  let m := String.length suffix in
  (m <=? n)%nat && String.eqb (String.substring (n - m) m s) suffix.

(** [email.message.Message.get_content_type] for a header value: the
    text before the first [;], stripped and in lower case, or
    ["text/plain"] unless it has exactly one [/]. *)
Definition get_content_type (value : string) : string :=
  let ctype := lower (strip (partition_before ";" value)) in
  if (count_char "/" ctype =? 1)%nat then ctype else "text/plain".

(** Whether the framework decodes the body as JSON: the header is absent
    or empty, or its type is [application/json] or
    [application/...+json]. *)
Definition reads_as_json (content_type : option string) : bool :=
  match content_type with
  | None => true
  | Some value =>
      if String.eqb value "" then true
      else
        let ctype := get_content_type value in
        let maintype := partition_before "/" ctype in
        let subtype := partition_after "/" ctype in
        String.eqb maintype "application"
        && (String.eqb subtype "json" || endswith subtype "+json")
  end.

(** The [body] the framework hands to validation: [None] (no bytes, or
    JSON [null]), the bytes themselves, or the decoded value. *)
Inductive received_body :=
| body_None
| body_raw
| body_value (v : json_value).

(** Reading the body: a [body], a JSON decoding error (which becomes a
    [RequestValidationError]), or any other decoding failure (which
    becomes an [HTTPException] 400). *)
Inductive reading :=
| Read (body : received_body)
| JSONDecodeError (pos : Z)
| ParsingFailed.

Definition read_body (request : Request) : reading :=
  match body_bytes request with
  | NoBody => Read body_None
  | Undecodable =>
      if reads_as_json (content_type request) then ParsingFailed
      else Read body_raw
  | Malformed pos =>
      if reads_as_json (content_type request) then JSONDecodeError pos
      else Read body_raw
  | Json v =>
      if reads_as_json (content_type request) then
        match v with
        | JScalar VNone => Read body_None
        | _ => Read (body_value v)
        end
      else Read body_raw
  end.

(** Validation of the body against the [todo: TodoCreate] parameter. *)
Definition validate_body (body : received_body)
  : list error_item + TodoCreate.t :=
  match body with
  | body_None => inl [(["body"], "Field required")]
  | body_value (JObject fields) => TodoCreate.model_validate fields
  | _ =>
      inl [(["body"],
            "Input should be a valid dictionary or object to extract fields from")]
  end.

(** The answer to a [RequestValidationError]: what the handler returns,
    or a server error when the handler itself raises. *)
Definition request_validation_error {A} (request : Request)
    (errors : list error_item) : JSONResponse A :=
  match validation_exception_handler request errors with
  | Some response => response
  | None => mk_JSONResponse 500 (Detail "Internal Server Error")
  end.

(** [POST /todos/]: the body is read and validated against
    [TodoCreate]; a failure goes to [validation_exception_handler] and
    [create_todo] is not entered. *)
Definition post_todos (request : Request) (now : datetime) (c : list dict)
  : JSONResponse dict * list dict :=
  match read_body request with
  | ParsingFailed =>
      (mk_JSONResponse 400 (Detail "There was an error parsing the body"), c)
  | JSONDecodeError pos =>
      (request_validation_error request
         [(["body"; str_int pos], "JSON decode error")], c)
  | Read body =>
      match validate_body body with
      | inl errors => (request_validation_error request errors, c)
      | inr todo =>
          let '(r, c') := create_todo todo now c in (respond r, c')
      end
  end.

(** ** Notions used in the statements *)

(** The [deleted] flag as the handlers test it:
    [db_todo.get("deleted", False)] taken as a truth value. *)
Definition deleted_flag (d : dict) : bool :=
  truthy (dict_get d "deleted" (VBool false)).

(** The value an update field contributes: one that was provided and is
    not [None]. *)
Definition effective {A} (f : TodoUpdate.field A) : option A :=
  match f with
  | TodoUpdate.Provided (Some a) => Some a
  | _ => None
  end.

(** Whether an update input carries at least one such field. *)
Definition has_effective_field (todo : TodoUpdate.t) : bool :=
  bool_decide (is_Some (effective (TodoUpdate.title todo))
               ∨ is_Some (effective (TodoUpdate.description todo))
               ∨ is_Some (effective (TodoUpdate.completed todo))).

(** A three-way comparison that behaves as a total preorder. *)
Definition ordering {A} (cmp : A → A → comparison) : Prop :=
  (∀ a b, cmp a b = CompOpp (cmp b a))
  ∧ (∀ a b c, cmp a b = Eq → cmp a c = cmp b c)
  ∧ (∀ a b c, cmp a b = Gt → cmp b c = Gt → cmp a c = Gt).

(** The ceiling of [a / b]: the negated floor of the negated quotient. *)
Definition ceil_div (a b : Z) : Z := - ((- a) `div` b).

(** The records a listing draws from: all of them, or those whose
    [deleted] field is [False]. *)
Definition listed (include_deleted : bool) (d : dict) : bool :=
  include_deleted || bool_decide (d !! "deleted" = Some (VBool false)).

(** [d1] does not come below [d2] on field [k], in BSON order. *)
Definition descending_by (k : string) (d1 d2 : dict) : Prop :=
  bson_compare (Cursor.sort_key k d1) (Cursor.sort_key k d2) ≠ Lt.

(** A call of one of the handlers that write. *)
Inductive call :=
| CreateTodo (todo : TodoCreate.t)
| UpdateTodo (todo_id : string) (todo : TodoUpdate.t)
| DeleteTodo (todo_id : string) (permanent : bool)
| RestoreTodo (todo_id : string).

(** The collection a call leaves behind, whatever it returns or raises. *)
Definition perform (op : call) (now : datetime) (c : list dict) : list dict :=
  match op with
  | CreateTodo todo => (create_todo todo now c).2
  | UpdateTodo todo_id todo => (update_todo todo_id todo now c).2
  | DeleteTodo todo_id permanent => (delete_todo todo_id permanent now c).2
  | RestoreTodo todo_id => (restore_todo todo_id c).2
  end.

(** A history of calls, each with the clock reading it sees. *)
Fixpoint run (history : list (call * datetime)) (c : list dict) : list dict :=
  match history with
  | [] => c
  | (op, now) :: rest => run rest (perform op now c)
  end.

(** The two states of a record: active, with [deleted = False] and
    [deleted_at = None], or soft-deleted, with [deleted = True] and a
    time in [deleted_at]. *)
Definition soft_delete_consistent (d : dict) : Prop :=
  (d !! "deleted" = Some (VBool false) ∧ d !! "deleted_at" = Some VNone)
  ∨ (d !! "deleted" = Some (VBool true)
     ∧ ∃ t, d !! "deleted_at" = Some (VDate t)).

(** Sample data for the instances of the theorems. *)
Definition noon : datetime := mk_datetime 2024 5 17 12 0 0 0.
Definition evening : datetime := mk_datetime 2024 5 17 18 30 0 0.

Definition milk : dict :=
  {[ "_id" := VOid 1; "title" := VStr "buy milk"; "description" := VNone;
     "completed" := VBool false; "created_at" := VDate noon;
     "updated_at" := VDate noon; "deleted" := VBool false;
     "deleted_at" := VNone ]}.

Definition bread : dict :=
  {[ "_id" := VOid 2; "title" := VStr "bake bread";
     "description" := VStr "rye"; "completed" := VBool true;
     "created_at" := VDate noon; "updated_at" := VDate noon;
     "deleted" := VBool true; "deleted_at" := VDate noon ]}.

Definition pantry : list dict := [milk; bread].

Definition id1 : string := "000000000000000000000001".
Definition id2 : string := "000000000000000000000002".

(** An update that completes a todo and passes [description] as null. *)
Definition done_null_description : TodoUpdate.t :=
  TodoUpdate.mk TodoUpdate.Unset (TodoUpdate.Provided None)
    (TodoUpdate.Provided (Some true)).

(** An update whose only field is an explicit null. *)
Definition only_null_title : TodoUpdate.t :=
  TodoUpdate.mk (TodoUpdate.Provided None) TodoUpdate.Unset TodoUpdate.Unset.

(** A create request that carries only a title. *)
Definition buy_milk_request : Request :=
  mk_Request (Some "application/json")
    (Json (JObject {[ "title" := VStr "buy milk" ]})).


(** A request without a title. *)
Definition no_title_request : Request :=
  mk_Request (Some "application/json")
    (Json (JObject {[ "description" := VStr "rye" ]})).


(** A JSON object sent as plain text. *)
Definition plain_text_request : Request :=
  mk_Request (Some "text/plain") (Json (JObject {[ "title" := VStr "buy milk" ]})).

(** ** Further notions used in the statements *)

(** The record an update makes of [d]: the effective fields and
    [updated_at] set over it, or [d] itself when there is none. *)
Definition updated (todo : TodoUpdate.t) (now : datetime) (d : dict) : dict :=
  let update_data :=
    not_None_items (TodoUpdate.model_dump_exclude_unset todo) in
  if bool_decide (update_data ≠ ∅)
  then <["updated_at" := VDate now]> update_data ∪ d
  else d.

(** The response shape of a stored record. *)
Definition response_of (d : dict) : dict :=
  match format_todo_response (Some d) with
  | inr r => r
  | inl _ => ∅
  end.

(** The records a listing selects, in the order it pages them. *)
Definition ordered_selection (include_deleted : bool)
    (sort_by : option string) (c : list dict) : list dict :=
  let selected := List.filter (listed include_deleted) c in
  if bool_decide (sort_by = Some "date")
  then Cursor.sort [("created_at", -1)] selected
  else if bool_decide (sort_by = Some "completed")
  then Cursor.sort [("completed", -1)] selected
  else selected.

(** The identities of the records of a collection, in order. *)
Definition ids (c : list dict) : list (option pyval) :=
  (λ d : dict, d !! "_id") <$> c.

(** The [data] of the page a listing returns, empty when it raises. *)
Definition page_data (include_deleted : bool) (sort_by : option string)
    (items_per_page page_number : Z) (c : list dict) : list dict :=
  match (read_todos include_deleted sort_by items_per_page page_number c).1 with
  | inr r => data r
  | inl _ => []
  end.

(** * Properties *)

(** [k ∉ [k1; ...; kn]] as the inequalities [k ≠ k1], ..., [k ≠ kn]. *)
Ltac not_in_keys :=
  rewrite ?not_elem_of_cons in *;
  repeat match goal with H : _ ∧ _ |- _ => destruct H end;
  repeat split; (done || apply not_elem_of_nil).

Ltac run_handler :=
  unfold mbind, M_bind, mret, M_ret, raise, lift, try_except,
    collection_find_one, collection_update_one, collection_delete_one,
    collection_insert_one, collection_count_documents, collection_find;
  cbn beta iota.


(** ** Object ids as text *)

Lemma hex_value_digit (m : N) :
  (m < 16)%N → ObjectId.hex_value (ObjectId.hex_digit m) = Some m.
Proof.
  intros Hm.
  assert (m ∈ (N.of_nat <$> seq 0 16)) as Hin.
  { apply list_elem_of_fmap. exists (N.to_nat m). split; [lia|].
    apply elem_of_seq. lia. }
  cbn in Hin. rewrite !elem_of_cons in Hin.
  repeat (destruct Hin as [->|Hin]; [reflexivity|]).
  by apply elem_of_nil in Hin.
Qed.

Lemma from_hex_to_hex (k : nat) (n a : N) (s : string) :
  ObjectId.from_hex (ObjectId.to_hex k n s) a
  = ObjectId.from_hex s (16 ^ N.of_nat k * a + n mod 16 ^ N.of_nat k)%N.
Proof.
  revert n s. induction k as [|k IH]; intros n s.
  - cbn [ObjectId.to_hex]. f_equal. cbn. rewrite N.mod_1_r. lia.
  - cbn [ObjectId.to_hex]. rewrite IH. cbn [ObjectId.from_hex].
    rewrite hex_value_digit by (apply N.mod_lt; lia).
    f_equal. rewrite Nat2N.inj_succ, N.pow_succ_r'.
    rewrite (N.Div0.mod_mul_r n 16). lia.
Qed.

Lemma length_to_hex (k : nat) (n : N) (s : string) :
  String.length (ObjectId.to_hex k n s) = (k + String.length s)%nat.
Proof.
  revert n s. induction k as [|k IH]; intros n s; [done|].
  cbn [ObjectId.to_hex]. rewrite IH. cbn. lia.
Qed.

(** The text of a 12-byte id, as the response carries it in ["id"], is a
    path identifier that parses back to the id. *)
Lemma ObjectId_parse_str (o : ObjectId.t) :
  (o < 2 ^ 96)%N → ObjectId.parse (ObjectId.str o) = Some o.
Proof.
  intros Ho. unfold ObjectId.parse, ObjectId.str.
  rewrite length_to_hex. cbn [String.length Nat.add Nat.eqb].
  rewrite from_hex_to_hex. cbn [ObjectId.from_hex]. f_equal.
  change (16 ^ N.of_nat 24)%N with (2 ^ 96)%N.
  rewrite N.mod_small by done. lia.
Qed.

(** ** The collection *)

Section collection_facts.
Implicit Types (q upd d : dict) (c : list dict).

Lemma matches_id d (v : pyval) :
  Collection.matches {[ "_id" := v ]} d = true ↔ d !! "_id" = Some v.
Proof.
  unfold Collection.matches. rewrite bool_decide_eq_true.
  apply map_singleton_subseteq_l.
Qed.

Lemma matches_not_deleted d :
  Collection.matches {[ "deleted" := VBool false ]} d = true
  ↔ d !! "deleted" = Some (VBool false).
Proof.
  unfold Collection.matches. rewrite bool_decide_eq_true.
  apply map_singleton_subseteq_l.
Qed.

Lemma matches_all d : Collection.matches ∅ d = true.
Proof.
  unfold Collection.matches. rewrite bool_decide_eq_true.
  apply map_empty_subseteq.
Qed.

(** The document [find_one] returns is the first match. *)
Lemma find_one_Some q c d :
  Collection.find_one q c = Some d →
  ∃ c1 c2, c = c1 ++ d :: c2
    ∧ Forall (λ x, Collection.matches q x = false) c1
    ∧ Collection.matches q d = true.
Proof.
  unfold Collection.find_one, Collection.find.
  induction c as [|x c IH]; simpl; [discriminate|].
  destruct (Collection.matches q x) eqn:Hx; simpl.
  - intros [= ->]. exists [], c. auto.
  - intros H. destruct (IH H) as (c1 & c2 & -> & Hc1 & Hd).
    exists (x :: c1), c2. auto.
Qed.

Lemma find_one_at q c1 d c2 :
  Forall (λ x, Collection.matches q x = false) c1 →
  Collection.matches q d = true →
  Collection.find_one q (c1 ++ d :: c2) = Some d.
Proof.
  unfold Collection.find_one, Collection.find.
  induction 1 as [|x c1 Hx _ IH]; simpl; intros Hd.
  - by rewrite Hd.
  - rewrite Hx. auto.
Qed.

Lemma find_one_None q c :
  Collection.find_one q c = None ↔ Forall (λ x, Collection.matches q x = false) c.
Proof.
  unfold Collection.find_one, Collection.find.
  induction c as [|x c IH]; simpl.
  - split; auto.
  - destruct (Collection.matches q x) eqn:Hx; simpl.
    + split; [discriminate|]. intros H. inversion H; congruence.
    + rewrite IH. split; [by constructor|]. by inversion 1.
Qed.

Lemma update_one_at q upd c1 d c2 :
  Forall (λ x, Collection.matches q x = false) c1 →
  Collection.matches q d = true →
  Collection.update_one q upd (c1 ++ d :: c2) = c1 ++ (upd ∪ d) :: c2.
Proof.
  induction 1 as [|x c1 Hx _ IH]; simpl; intros Hd.
  - by rewrite Hd.
  - rewrite Hx. by rewrite IH.
Qed.

Lemma delete_one_at q c1 d c2 :
  Forall (λ x, Collection.matches q x = false) c1 →
  Collection.matches q d = true →
  Collection.delete_one q (c1 ++ d :: c2) = c1 ++ c2.
Proof.
  induction 1 as [|x c1 Hx _ IH]; simpl; intros Hd.
  - by rewrite Hd.
  - rewrite Hx. by rewrite IH.
Qed.

Lemma update_one_None q upd c :
  Collection.find_one q c = None → Collection.update_one q upd c = c.
Proof.
  rewrite find_one_None. induction 1 as [|x c Hx _ IH]; simpl; [done|].
  by rewrite Hx, IH.
Qed.

(** A [$set] that leaves ["_id"] alone keeps the document under its id. *)
Lemma matches_id_set upd d (v : pyval) :
  upd !! "_id" = None →
  Collection.matches {[ "_id" := v ]} d = true →
  Collection.matches {[ "_id" := v ]} (upd ∪ d) = true.
Proof.
  rewrite !matches_id. intros Hupd Hd.
  rewrite lookup_union_r; done.
Qed.

(** Every document under an invariant that the update keeps stays under
    it. *)
Lemma update_one_Forall (P : dict → Prop) q upd c :
  (∀ d, P d → P (upd ∪ d)) →
  Forall P c → Forall P (Collection.update_one q upd c).
Proof.
  intros Hupd. induction 1 as [|x c Hx Hc IH]; simpl; [constructor|].
  destruct (Collection.matches q x); constructor; auto.
Qed.

Lemma delete_one_Forall (P : dict → Prop) q c :
  Forall P c → Forall P (Collection.delete_one q c).
Proof.
  induction 1 as [|x c Hx Hc IH]; simpl; [constructor|].
  destruct (Collection.matches q x); [done|]. by constructor.
Qed.

Lemma oid_of_le_max c d :
  d ∈ c → (Collection.oid_of d ≤ foldr N.max 0 (Collection.oid_of <$> c))%N.
Proof.
  induction 1 as [d c|d x c _ IH]; csimpl; lia.
Qed.

(** The generated id is carried by no document of the collection. *)
Lemma new_ObjectId_fresh c :
  Forall (λ x, Collection.matches {[ "_id" := VOid (Collection.new_ObjectId c) ]} x = false) c.
Proof.
  apply Forall_forall. intros d Hd.
  apply not_true_is_false. rewrite matches_id. intros Hid.
  pose proof (oid_of_le_max c d Hd) as Hle.
  assert (Collection.oid_of d = Collection.new_ObjectId c) as Heq
    by (unfold Collection.oid_of; by rewrite Hid).
  rewrite Heq in Hle. unfold Collection.new_ObjectId in Hle. lia.
Qed.

End collection_facts.

(** ** The response shape *)

Lemma format_todo_response_found (d : dict) (v : pyval) :
  d !! "_id" = Some v →
  format_todo_response (Some d)
  = inr (delete "_id" (<["id" := VStr (py_str v)]> d)).
Proof.
  intros Hid. unfold format_todo_response.
  rewrite bool_decide_eq_false_2.
  - by rewrite Hid.
  - intros ->. by rewrite lookup_empty in Hid.
Qed.

(** The response keeps every field but the identity: ["_id"] goes and
    ["id"] holds its text. *)
Lemma response_lookup (d : dict) (s k : string) :
  k ≠ "_id" → k ≠ "id" →
  delete "_id" (<["id" := VStr s]> d) !! k = d !! k.
Proof.
  intros H1 H2. rewrite lookup_delete_ne by done.
  by rewrite lookup_insert_ne.
Qed.

Lemma format_all_found (l : list dict) :
  Forall (λ d, is_Some (d !! "_id")) l →
  ∃ todos, format_all l = inr todos
    ∧ Forall2 (λ d r, format_todo_response (Some d) = inr r) l todos.
Proof.
  induction 1 as [|d l [v Hv] _ (todos & Hall & IH)].
  - exists []. by split; [|constructor].
  - exists (delete "_id" (<["id" := VStr (py_str v)]> d) :: todos).
    cbn [format_all]. rewrite (format_todo_response_found d v Hv), Hall.
    split; [done|]. constructor; [|done].
    by apply format_todo_response_found.
Qed.

(** ** Soft delete *)

Lemma delete_todo_soft (c : list dict) (todo_id : string)
    (obj_id : ObjectId.t) (d : dict) (now : datetime) :
  ObjectId.parse todo_id = Some obj_id →
  Collection.find_one {[ "_id" := VOid obj_id ]} c = Some d →
  ∃ c1 c2, c = c1 ++ d :: c2
    ∧ Forall (λ x, Collection.matches {[ "_id" := VOid obj_id ]} x = false) c1
    ∧ d !! "_id" = Some (VOid obj_id)
    ∧ delete_todo todo_id false now c
      = (inr (delete "_id" (<["id" := VStr (ObjectId.str obj_id)]> d)),
         c1 ++ ({[ "deleted" := VBool true; "deleted_at" := VDate now ]} ∪ d)
            :: c2).
Proof.
  intros Hparse Hfind.
  destruct (find_one_Some _ _ _ Hfind) as (c1 & c2 & Hc & Hc1 & Hd).
  exists c1, c2. split; [done|]. split; [done|].
  pose proof (proj1 (matches_id _ _) Hd) as Hid. split; [done|].
  unfold delete_todo. rewrite Hparse. run_handler. rewrite Hfind.
  rewrite (format_todo_response_found d _ Hid).
  subst c. by rewrite update_one_at.
Qed.

Lemma soft_delete_set_lookup (d : dict) (now : datetime) :
  let d' : dict := {[ "deleted" := VBool true; "deleted_at" := VDate now ]} ∪ d in
  d' !! "deleted" = Some (VBool true)
  ∧ d' !! "deleted_at" = Some (VDate now)
  ∧ ∀ k, k ≠ "deleted" → k ≠ "deleted_at" → d' !! k = d !! k.
Proof.
  repeat split.
  - by apply lookup_union_Some_l.
  - by apply lookup_union_Some_l.
  - intros k H1 H2. apply lookup_union_r.
    rewrite lookup_insert_ne by done. by rewrite lookup_singleton_ne.
Qed.

(** C2. A soft delete ([permanent = False]) of an existing record writes
    [deleted = True] and [deleted_at = now] into that record and leaves
    its other fields ([updated_at] among them) and all other records as
    they were; the handler returns the response shape of the record as
    it was read before the write, so the returned [deleted] and
    [deleted_at] are the old ones. *)
Theorem delete_todo_soft_returns_pre_delete_view
    (c : list dict) (todo_id : string) (obj_id : ObjectId.t) (d : dict)
    (now : datetime) :
  ObjectId.parse todo_id = Some obj_id →
  Collection.find_one {[ "_id" := VOid obj_id ]} c = Some d →
  ∃ c1 c2 d' r,
    c = c1 ++ d :: c2
    ∧ delete_todo todo_id false now c = (inr r, c1 ++ d' :: c2)
    ∧ Collection.find_one {[ "_id" := VOid obj_id ]} (c1 ++ d' :: c2) = Some d'
    ∧ d' !! "deleted" = Some (VBool true)
    ∧ d' !! "deleted_at" = Some (VDate now)
    ∧ d' !! "updated_at" = d !! "updated_at"
    ∧ (∀ k, k ≠ "deleted" → k ≠ "deleted_at" → d' !! k = d !! k)
    ∧ format_todo_response (Some d) = inr r
    ∧ r !! "deleted" = d !! "deleted"
    ∧ r !! "deleted_at" = d !! "deleted_at"
    ∧ (∀ k, k ≠ "_id" → k ≠ "id" → r !! k = d !! k).
Proof.
  intros Hparse Hfind.
  destruct (delete_todo_soft c todo_id obj_id d now Hparse Hfind)
    as (c1 & c2 & Hc & Hc1 & Hid & Hrun).
  destruct (soft_delete_set_lookup d now) as (Hdel & Hat & Hframe).
  eexists c1, c2, _, _. split; [done|]. split; [exact Hrun|].
  split.
  { apply find_one_at; [done|]. apply matches_id.
    rewrite Hframe by done. done. }
  split; [done|]. split; [done|]. split; [by apply Hframe|].
  split; [done|].
  split; [by apply (format_todo_response_found d (VOid obj_id))|].
  split; [by apply response_lookup|].
  split; [by apply response_lookup|].
  intros k H1 H2. by apply response_lookup.
Qed.

Lemma delete_todo_soft_returns_pre_delete_view_witness :
  ∃ c1 c2 d' r,
    pantry = c1 ++ milk :: c2
    ∧ delete_todo id1 false evening pantry = (inr r, c1 ++ d' :: c2)
    ∧ Collection.find_one {[ "_id" := VOid 1 ]} (c1 ++ d' :: c2) = Some d'
    ∧ d' !! "deleted" = Some (VBool true)
    ∧ d' !! "deleted_at" = Some (VDate evening)
    ∧ d' !! "updated_at" = milk !! "updated_at"
    ∧ (∀ k, k ≠ "deleted" → k ≠ "deleted_at" → d' !! k = milk !! k)
    ∧ format_todo_response (Some milk) = inr r
    ∧ r !! "deleted" = milk !! "deleted"
    ∧ r !! "deleted_at" = milk !! "deleted_at"
    ∧ (∀ k, k ≠ "_id" → k ≠ "id" → r !! k = milk !! k).
Proof.
  apply (delete_todo_soft_returns_pre_delete_view pantry id1 1%N milk evening).
  - reflexivity.
  - reflexivity.
Defined.

(** The returned view of the sample record still says it is not
    deleted, while the stored record is. *)
Example soft_deleted_milk_view :
  match delete_todo id1 false evening pantry with
  | (inr r, c') =>
      r !! "deleted" = Some (VBool false)
      ∧ r !! "deleted_at" = Some VNone
      ∧ (λ d : dict, d !! "deleted") <$> Collection.find_one {[ "_id" := VOid 1 ]} c'
        = Some (Some (VBool true))
  | _ => False
  end.
Proof. vm_compute. auto. Qed.

(** C10. A soft delete of a record that is already soft-deleted is not
    refused: the handler returns normally, the returned view is the
    record as read (with [deleted = True]), and [deleted_at] is
    overwritten with the current time. *)
Theorem delete_todo_soft_on_deleted_succeeds
    (c : list dict) (todo_id : string) (obj_id : ObjectId.t) (d : dict)
    (now : datetime) :
  ObjectId.parse todo_id = Some obj_id →
  Collection.find_one {[ "_id" := VOid obj_id ]} c = Some d →
  d !! "deleted" = Some (VBool true) →
  ∃ c1 c2 d' r,
    c = c1 ++ d :: c2
    ∧ delete_todo todo_id false now c = (inr r, c1 ++ d' :: c2)
    ∧ format_todo_response (Some d) = inr r
    ∧ r !! "deleted" = Some (VBool true)
    ∧ r !! "deleted_at" = d !! "deleted_at"
    ∧ d' !! "deleted" = Some (VBool true)
    ∧ d' !! "deleted_at" = Some (VDate now)
    ∧ (∀ k, k ≠ "deleted_at" → d' !! k = d !! k).
Proof.
  intros Hparse Hfind Hdeleted.
  destruct (delete_todo_soft c todo_id obj_id d now Hparse Hfind)
    as (c1 & c2 & Hc & Hc1 & Hid & Hrun).
  destruct (soft_delete_set_lookup d now) as (Hdel & Hat & Hframe).
  eexists c1, c2, _, _. split; [done|]. split; [exact Hrun|].
  split; [by apply (format_todo_response_found d (VOid obj_id))|].
  split; [by rewrite response_lookup|].
  split; [by apply response_lookup|].
  split; [done|]. split; [done|].
  intros k Hk. destruct (decide (k = "deleted")) as [->|Hne].
  - by rewrite Hdel, Hdeleted.
  - by apply Hframe.
Qed.

Lemma delete_todo_soft_on_deleted_succeeds_witness :
  ∃ c1 c2 d' r,
    pantry = c1 ++ bread :: c2
    ∧ delete_todo id2 false evening pantry = (inr r, c1 ++ d' :: c2)
    ∧ format_todo_response (Some bread) = inr r
    ∧ r !! "deleted" = Some (VBool true)
    ∧ r !! "deleted_at" = bread !! "deleted_at"
    ∧ d' !! "deleted" = Some (VBool true)
    ∧ d' !! "deleted_at" = Some (VDate evening)
    ∧ (∀ k, k ≠ "deleted_at" → d' !! k = bread !! k).
Proof.
  apply (delete_todo_soft_on_deleted_succeeds pantry id2 2%N bread evening).
  - reflexivity.
  - reflexivity.
  - reflexivity.
Defined.

(** ** The soft-delete guards of update and restore *)

(** C4. An update of an existing record whose [deleted] flag is true is
    refused with status 400 and detail "Cannot update deleted todo"; a
    restore of an existing record whose [deleted] flag is false is
    refused with status 400 and detail "Todo is not deleted". In both
    cases the collection is left as it was. *)
Theorem update_and_restore_state_guards
    (c : list dict) (todo_id : string) (obj_id : ObjectId.t) (d : dict) :
  ObjectId.parse todo_id = Some obj_id →
  Collection.find_one {[ "_id" := VOid obj_id ]} c = Some d →
  (deleted_flag d = true →
   ∀ (todo : TodoUpdate.t) (now : datetime),
     update_todo todo_id todo now c
     = (inl (HTTPException 400 "Cannot update deleted todo"), c))
  ∧ (deleted_flag d = false →
     restore_todo todo_id c
     = (inl (HTTPException 400 "Todo is not deleted"), c)).
Proof.
  unfold deleted_flag. intros Hparse Hfind. split.
  - intros Hdeleted todo now.
    unfold update_todo. rewrite Hparse. run_handler. rewrite Hfind.
    by rewrite Hdeleted.
  - intros Hactive.
    unfold restore_todo. rewrite Hparse. run_handler. rewrite Hfind.
    by rewrite Hactive.
Qed.

Lemma update_and_restore_state_guards_witness :
  update_todo id2
    (TodoUpdate.mk (TodoUpdate.Provided (Some "bake rolls")) TodoUpdate.Unset
       TodoUpdate.Unset) evening pantry
  = (inl (HTTPException 400 "Cannot update deleted todo"), pantry)
  ∧ restore_todo id1 pantry
    = (inl (HTTPException 400 "Todo is not deleted"), pantry).
Proof.
  split.
  - apply (update_and_restore_state_guards pantry id2 2%N bread);
      reflexivity.
  - apply (update_and_restore_state_guards pantry id1 1%N milk);
      reflexivity.
Defined.

(** ** Fetching one record *)

(** C6. [read_todo] answers 400 when the path identifier is not an
    object id, 404 "Todo not found" when no record carries the id, 404
    "Todo was deleted" when the record's [deleted] flag is true, and the
    response shape of the record otherwise; it never writes. *)
Theorem read_todo_outcomes (c : list dict) (todo_id : string) :
  (ObjectId.parse todo_id = None →
   read_todo todo_id c = (inl (HTTPException 400 "Invalid ID format"), c))
  ∧ (∀ obj_id,
       ObjectId.parse todo_id = Some obj_id →
       Collection.find_one {[ "_id" := VOid obj_id ]} c = None →
       read_todo todo_id c = (inl (HTTPException 404 "Todo not found"), c))
  ∧ (∀ obj_id d,
       ObjectId.parse todo_id = Some obj_id →
       Collection.find_one {[ "_id" := VOid obj_id ]} c = Some d →
       deleted_flag d = true →
       read_todo todo_id c = (inl (HTTPException 404 "Todo was deleted"), c))
  ∧ (∀ obj_id d,
       ObjectId.parse todo_id = Some obj_id →
       Collection.find_one {[ "_id" := VOid obj_id ]} c = Some d →
       deleted_flag d = false →
       ∃ r, read_todo todo_id c = (inr r, c)
         ∧ format_todo_response (Some d) = inr r
         ∧ r !! "id" = Some (VStr (ObjectId.str obj_id))
         ∧ r !! "_id" = None
         ∧ ∀ k, k ≠ "_id" → k ≠ "id" → r !! k = d !! k).
Proof.
  unfold deleted_flag. repeat split.
  - intros Hparse. unfold read_todo. by rewrite Hparse.
  - intros obj_id Hparse Hfind. unfold read_todo. rewrite Hparse.
    run_handler. by rewrite Hfind.
  - intros obj_id d Hparse Hfind Hdeleted. unfold read_todo. rewrite Hparse.
    run_handler. rewrite Hfind. by rewrite Hdeleted.
  - intros obj_id d Hparse Hfind Hactive.
    destruct (find_one_Some _ _ _ Hfind) as (c1 & c2 & Hc & Hc1 & Hd).
    apply matches_id in Hd.
    pose proof (format_todo_response_found d _ Hd) as Hfmt.
    eexists. split; [|split; [exact Hfmt|]].
    + unfold read_todo. rewrite Hparse. run_handler. rewrite Hfind.
      rewrite Hactive. by rewrite Hfmt.
    + split; [|split].
      * rewrite lookup_delete_ne by done. by rewrite lookup_insert_eq.
      * by rewrite lookup_delete_eq.
      * intros k H1 H2. by apply response_lookup.
Qed.

Lemma read_todo_outcomes_witness :
  read_todo "not-an-id" pantry = (inl (HTTPException 400 "Invalid ID format"), pantry)
  ∧ read_todo "000000000000000000000003" pantry
    = (inl (HTTPException 404 "Todo not found"), pantry)
  ∧ read_todo id2 pantry = (inl (HTTPException 404 "Todo was deleted"), pantry)
  ∧ ∃ r, read_todo id1 pantry = (inr r, pantry)
      ∧ format_todo_response (Some milk) = inr r
      ∧ r !! "id" = Some (VStr (ObjectId.str 1%N))
      ∧ r !! "_id" = None
      ∧ ∀ k, k ≠ "_id" → k ≠ "id" → r !! k = milk !! k.
Proof.
  split; [|split; [|split]].
  - apply (read_todo_outcomes pantry "not-an-id"). reflexivity.
  - apply (read_todo_outcomes pantry "000000000000000000000003" ) with (obj_id := 3%N);
      reflexivity.
  - apply (read_todo_outcomes pantry id2) with (obj_id := 2%N) (d := bread);
      reflexivity.
  - apply (read_todo_outcomes pantry id1) with (obj_id := 1%N) (d := milk);
      reflexivity.
Defined.

(** ** Update *)

Section update_data.
Variable todo : TodoUpdate.t.

Local Abbreviation update_data :=
  (not_None_items (TodoUpdate.model_dump_exclude_unset todo)).

(** The sparse update holds exactly the effective fields. *)
Lemma update_data_lookup (k : string) :
  update_data !! k =
    if decide (k = "title") then VStr <$> effective (TodoUpdate.title todo)
    else if decide (k = "description")
      then VStr <$> effective (TodoUpdate.description todo)
    else if decide (k = "completed")
      then VBool <$> effective (TodoUpdate.completed todo)
    else None.
Proof.
  unfold not_None_items. rewrite map_lookup_filter.
  unfold TodoUpdate.model_dump_exclude_unset, TodoUpdate.dump_field.
  destruct todo as [[|[?|]] [|[?|]] [|[?|]]]; cbn [TodoUpdate.title
    TodoUpdate.description TodoUpdate.completed effective from_option];
    repeat case_decide; subst; simplify_map_eq; try done;
    by rewrite ?option_guard_True, ?option_guard_False by (simpl; congruence).
Qed.

Lemma update_data_title :
  update_data !! "title" = VStr <$> effective (TodoUpdate.title todo).
Proof. rewrite update_data_lookup. by rewrite decide_True. Qed.

Lemma update_data_description :
  update_data !! "description"
  = VStr <$> effective (TodoUpdate.description todo).
Proof.
  rewrite update_data_lookup. rewrite decide_False by done.
  by rewrite decide_True.
Qed.

Lemma update_data_completed :
  update_data !! "completed"
  = VBool <$> effective (TodoUpdate.completed todo).
Proof.
  rewrite update_data_lookup. rewrite !decide_False by done.
  by rewrite decide_True.
Qed.

Lemma update_data_other (k : string) :
  k ∉ ["title"; "description"; "completed"] → update_data !! k = None.
Proof.
  intros Hk. rewrite update_data_lookup.
  rewrite !decide_False; [done|not_in_keys..].
Qed.

Lemma update_data_empty :
  update_data = ∅ ↔ has_effective_field todo = false.
Proof.
  unfold has_effective_field. rewrite bool_decide_eq_false, map_empty.
  split.
  - intros Hnone [H|[H|H]].
    + specialize (Hnone "title"). rewrite update_data_title in Hnone.
      destruct H as [? H]. by rewrite H in Hnone.
    + specialize (Hnone "description"). rewrite update_data_description in Hnone.
      destruct H as [? H]. by rewrite H in Hnone.
    + specialize (Hnone "completed"). rewrite update_data_completed in Hnone.
      destruct H as [? H]. by rewrite H in Hnone.
  - intros Hnot k. rewrite update_data_lookup.
    repeat case_decide; try done.
    + destruct (effective (TodoUpdate.title todo)) eqn:E; [|done].
      destruct Hnot. left. eauto.
    + destruct (effective (TodoUpdate.description todo)) eqn:E; [|done].
      destruct Hnot. right; left. eauto.
    + destruct (effective (TodoUpdate.completed todo)) eqn:E; [|done].
      destruct Hnot. right; right. eauto.
Qed.

End update_data.

(** C3. An update of an existing record that is not soft-deleted writes
    exactly the fields among [title], [description], [completed] that
    the input provides with a value other than [None]; [updated_at]
    becomes the current time if and only if there is such a field; all
    other fields of the record, and all other records, stay as they
    were. A field that is omitted or provided as [None] keeps its stored
    value, and an input without any effective field succeeds and returns
    the unchanged record. *)
Theorem update_todo_sparse
    (c : list dict) (todo_id : string) (obj_id : ObjectId.t) (d : dict)
    (todo : TodoUpdate.t) (now : datetime) :
  ObjectId.parse todo_id = Some obj_id →
  Collection.find_one {[ "_id" := VOid obj_id ]} c = Some d →
  deleted_flag d = false →
  ∃ c1 c2 d' r,
    c = c1 ++ d :: c2
    ∧ update_todo todo_id todo now c = (inr r, c1 ++ d' :: c2)
    ∧ format_todo_response (Some d') = inr r
    ∧ d' !! "title"
      = from_option (λ s, Some (VStr s)) (d !! "title")
          (effective (TodoUpdate.title todo))
    ∧ d' !! "description"
      = from_option (λ s, Some (VStr s)) (d !! "description")
          (effective (TodoUpdate.description todo))
    ∧ d' !! "completed"
      = from_option (λ b, Some (VBool b)) (d !! "completed")
          (effective (TodoUpdate.completed todo))
    ∧ d' !! "updated_at"
      = (if has_effective_field todo then Some (VDate now)
         else d !! "updated_at")
    ∧ (∀ k, k ∉ ["title"; "description"; "completed"; "updated_at"] →
            d' !! k = d !! k)
    ∧ (has_effective_field todo = false → d' = d).
Proof.
  intros Hparse Hfind Hactive. unfold deleted_flag in Hactive.
  destruct (find_one_Some _ _ _ Hfind) as (c1 & c2 & Hc & Hc1 & Hd).
  pose proof (proj1 (matches_id _ _) Hd) as Hid.
  pose proof (update_data_title todo) as Htitle.
  pose proof (update_data_description todo) as Hdescription.
  pose proof (update_data_completed todo) as Hcompleted.
  pose proof (update_data_other todo) as Hother.
  pose proof (update_data_empty todo) as Hempty.
  unfold update_todo. rewrite Hparse. run_handler. rewrite Hfind, Hactive.
  set (update_data :=
         not_None_items (TodoUpdate.model_dump_exclude_unset todo)) in *.
  destruct (has_effective_field todo) eqn:Heff.
  - (* some effective field: one [$set] with [updated_at] *)
    rewrite bool_decide_eq_true_2
      by (intros He; apply Hempty in He; congruence).
    set (upd := <["updated_at" := VDate now]> update_data).
    assert (upd !! "_id" = None) as Hupd_id.
    { unfold upd. rewrite lookup_insert_ne by done.
      apply Hother. not_in_keys. }
    assert ((upd ∪ d) !! "_id" = Some (VOid obj_id)) as Hid'
      by (by rewrite lookup_union_r).
    exists c1, c2, (upd ∪ d),
      (delete "_id" (<["id" := VStr (ObjectId.str obj_id)]> (upd ∪ d))).
    split; [done|]. subst c. rewrite update_one_at by done.
    rewrite find_one_at by (by rewrite ?matches_id).
    rewrite (format_todo_response_found _ _ Hid').
    split; [done|]. split; [done|]. unfold upd.
    split.
    { rewrite lookup_union, lookup_insert_ne, Htitle by done.
      by destruct (effective (TodoUpdate.title todo)), (d !! "title"). }
    split.
    { rewrite lookup_union, lookup_insert_ne, Hdescription by done.
      by destruct (effective (TodoUpdate.description todo)),
                  (d !! "description"). }
    split.
    { rewrite lookup_union, lookup_insert_ne, Hcompleted by done.
      by destruct (effective (TodoUpdate.completed todo)),
                  (d !! "completed"). }
    split.
    { rewrite lookup_union, lookup_insert_eq.
      by destruct (d !! "updated_at"). }
    split; [|done].
    intros k Hk. rewrite lookup_union_r; [done|].
    rewrite lookup_insert_ne by not_in_keys. apply Hother. not_in_keys.
  - (* no effective field: nothing is written *)
    assert (update_data = ∅) as -> by (by apply Hempty).
    rewrite bool_decide_eq_false_2 by (intros H; by apply H).
    exists c1, c2, d, (delete "_id" (<["id" := VStr (ObjectId.str obj_id)]> d)).
    split; [done|]. rewrite Hfind.
    rewrite (format_todo_response_found _ _ Hid). subst c.
    split; [done|]. split; [done|].
    apply bool_decide_eq_false in Heff.
    assert (effective (TodoUpdate.title todo) = None) as ->.
    { destruct (effective (TodoUpdate.title todo)) eqn:E; [|done].
      destruct Heff. left. eauto. }
    assert (effective (TodoUpdate.description todo) = None) as ->.
    { destruct (effective (TodoUpdate.description todo)) eqn:E; [|done].
      destruct Heff. right; left. eauto. }
    assert (effective (TodoUpdate.completed todo) = None) as ->.
    { destruct (effective (TodoUpdate.completed todo)) eqn:E; [|done].
      destruct Heff. right; right. eauto. }
    by repeat split.
Qed.

Lemma update_todo_sparse_witness :
  ∃ c1 c2 d' r,
    pantry = c1 ++ milk :: c2
    ∧ update_todo id1 done_null_description evening pantry
      = (inr r, c1 ++ d' :: c2)
    ∧ format_todo_response (Some d') = inr r
    ∧ d' !! "title"
      = from_option (λ s, Some (VStr s)) (milk !! "title")
          (effective (TodoUpdate.title done_null_description))
    ∧ d' !! "description"
      = from_option (λ s, Some (VStr s)) (milk !! "description")
          (effective (TodoUpdate.description done_null_description))
    ∧ d' !! "completed"
      = from_option (λ b, Some (VBool b)) (milk !! "completed")
          (effective (TodoUpdate.completed done_null_description))
    ∧ d' !! "updated_at"
      = (if has_effective_field done_null_description then Some (VDate evening)
         else milk !! "updated_at")
    ∧ (∀ k, k ∉ ["title"; "description"; "completed"; "updated_at"] →
            d' !! k = milk !! k)
    ∧ (has_effective_field done_null_description = false → d' = milk).
Proof.
  apply (update_todo_sparse pantry id1 1%N milk done_null_description evening).
  - reflexivity.
  - reflexivity.
  - reflexivity.
Defined.

(** On the sample record: [completed] is written and [updated_at]
    refreshed, the null [description] changes nothing. *)
Example milk_done_null_description :
  match update_todo id1 done_null_description evening pantry with
  | (inr r, c') =>
      r !! "completed" = Some (VBool true)
      ∧ r !! "description" = milk !! "description"
      ∧ r !! "title" = milk !! "title"
      ∧ r !! "updated_at" = Some (VDate evening)
      ∧ r !! "created_at" = milk !! "created_at"
  | _ => False
  end.
Proof. vm_compute. auto. Qed.

(** An input whose only field is null writes nothing at all. *)
Example milk_only_null_title :
  update_todo id1 only_null_title evening pantry
  = (format_todo_response (Some milk), pantry).
Proof. reflexivity. Qed.

(** ** Listing *)

Lemma ceil_div_bounds (a b : Z) :
  0 < b → (ceil_div a b - 1) * b < a ≤ ceil_div a b * b.
Proof.
  intros Hb. unfold ceil_div.
  pose proof (Z.div_mod (- a) b ltac:(lia)) as Hdm.
  pose proof (Z.mod_pos_bound (- a) b Hb) as Hmod. nia.
Qed.

Lemma total_pages_ceil (total_items items_per_page : Z) :
  0 < items_per_page →
  (total_items + items_per_page - 1) `div` items_per_page
  = ceil_div total_items items_per_page.
Proof.
  intros Hpos. unfold ceil_div. symmetry.
  pose proof (Z.div_mod (- total_items) items_per_page ltac:(lia)) as Hdm.
  pose proof (Z.mod_pos_bound (- total_items) items_per_page Hpos) as Hmod.
  apply (Z.div_unique _ _ _
           (items_per_page - 1 - (- total_items) `mod` items_per_page));
    [left; lia | nia].
Qed.

Lemma find_listed (include_deleted : bool) (c : list dict) :
  Collection.find (if include_deleted then ∅ else {[ "deleted" := VBool false ]}) c
  = List.filter (listed include_deleted) c.
Proof.
  unfold Collection.find, listed. induction c as [|d c IH]; [done|].
  cbn [List.filter]. rewrite IH. destruct include_deleted.
  - by rewrite matches_all.
  - cbn [orb].
    destruct (bool_decide (d !! "deleted" = Some (VBool false))) eqn:E.
    + apply bool_decide_eq_true in E. apply matches_not_deleted in E.
      by rewrite E.
    + apply bool_decide_eq_false in E.
      destruct (Collection.matches _ d) eqn:Hm; [|done].
      by apply matches_not_deleted in Hm.
Qed.

(** C7. When [(page_number - 1) * items_per_page] reaches or passes the
    number of records the filter selects, [read_todos] returns the
    envelope with no data, the requested page number, the selected
    count as [total_items] and its ceiling quotient by a positive
    [items_per_page] as [total_pages]; the collection is not changed. *)
Theorem read_todos_beyond_last_page
    (c : list dict) (include_deleted : bool) (sort_by : option string)
    (items_per_page page_number : Z) :
  0 < items_per_page → 0 < page_number →
  let total_items :=
    Z.of_nat (length (List.filter (listed include_deleted) c)) in
  (page_number - 1) * items_per_page >= total_items →
  read_todos include_deleted sort_by items_per_page page_number c
  = (inr (mk_PaginatedResponse page_number
            (ceil_div total_items items_per_page) items_per_page
            total_items []), c)
  ∧ (ceil_div total_items items_per_page - 1) * items_per_page < total_items
  ∧ total_items ≤ ceil_div total_items items_per_page * items_per_page
  ∧ (total_items + items_per_page - 1) `div` items_per_page
    = ceil_div total_items items_per_page.
Proof.
  intros Hipp Hpage total_items Hskip.
  pose proof (ceil_div_bounds total_items items_per_page Hipp) as [Hlo Hhi].
  pose proof (total_pages_ceil total_items items_per_page Hipp) as Hceil.
  split; [|done].
  unfold read_todos. run_handler.
  unfold Collection.count_documents. rewrite find_listed.
  fold total_items. rewrite Hceil.
  by rewrite bool_decide_eq_true_2.
Qed.

Lemma read_todos_beyond_last_page_witness :
  let total_items := Z.of_nat (length (List.filter (listed false) pantry)) in
  read_todos false (Some "date") 2 2 pantry
  = (inr (mk_PaginatedResponse 2 (ceil_div total_items 2) 2 total_items []),
     pantry)
  ∧ (ceil_div total_items 2 - 1) * 2 < total_items
  ∧ total_items ≤ ceil_div total_items 2 * 2
  ∧ (total_items + 2 - 1) `div` 2 = ceil_div total_items 2.
Proof.
  apply (read_todos_beyond_last_page pantry false (Some "date") 2 2).
  - lia.
  - lia.
  - vm_compute. discriminate.
Defined.

Example pantry_second_page_is_empty :
  read_todos false (Some "date") 2 2 pantry
  = (inr (mk_PaginatedResponse 2 1 2 1 []), pantry).
Proof. reflexivity. Qed.

Example total_pages_values :
  ceil_div 0 20 = 0 ∧ ceil_div 1 20 = 1 ∧ ceil_div 20 20 = 1
  ∧ ceil_div 21 20 = 2 ∧ ceil_div 5 2 = 3.
Proof. repeat split. Qed.

(** *** The sort order *)

Section orderings.
Context {A : Type}.

Lemma ordering_eq_r (cmp : A → A → comparison) (a b c : A) :
  ordering cmp → cmp b c = Eq → cmp a b = cmp a c.
Proof.
  intros (Hanti & Hcong & _) Hbc.
  rewrite (Hanti a b), (Hanti a c). f_equal.
  by apply Hcong.
Qed.

Lemma ordering_ge_trans (cmp : A → A → comparison) (a b c : A) :
  ordering cmp → cmp a b ≠ Lt → cmp b c ≠ Lt → cmp a c ≠ Lt.
Proof.
  intros Hord Hab Hbc. pose proof Hord as (Hanti & Hcong & Htrans).
  destruct (cmp a b) eqn:Eab; [|done|].
  - by rewrite (Hcong a b c Eab).
  - destruct (cmp b c) eqn:Ebc; [|done|].
    + by rewrite <- (ordering_eq_r cmp a b c Hord Ebc), Eab.
    + by rewrite (Htrans a b c Eab Ebc).
Qed.

Lemma ordering_on {B : Type} (f : A → B) (cmp : B → B → comparison) :
  ordering cmp → ordering (λ a b, cmp (f a) (f b)).
Proof.
  intros (Hanti & Hcong & Htrans). repeat split; intros.
  - apply Hanti.
  - by apply Hcong.
  - by apply (Htrans _ (f b)).
Qed.

Lemma ordering_lex (cmp1 cmp2 : A → A → comparison) :
  ordering cmp1 → ordering cmp2 →
  ordering (λ a b, lex (cmp1 a b) (cmp2 a b)).
Proof.
  intros H1 H2.
  pose proof H1 as (Hanti1 & Hcong1 & Htrans1).
  pose proof H2 as (Hanti2 & Hcong2 & Htrans2).
  repeat split.
  - intros a b. rewrite (Hanti1 a b), (Hanti2 a b).
    by destruct (cmp1 b a).
  - intros a b c. destruct (cmp1 a b) eqn:E1; [|done..]. cbn.
    intros E2. by rewrite (Hcong1 a b c E1), (Hcong2 a b c E2).
  - intros a b c.
    destruct (cmp1 a b) eqn:Eab; [|done|]; cbn;
      (destruct (cmp1 b c) eqn:Ebc; [|done|]); cbn; intros Hab Hbc.
    + rewrite (Hcong1 a b c Eab), Ebc. cbn. by apply (Htrans2 a b c).
    + by rewrite (Hcong1 a b c Eab), Ebc.
    + by rewrite <- (ordering_eq_r cmp1 a b c H1 Ebc), Eab.
    + by rewrite (Htrans1 a b c Eab Ebc).
Qed.

End orderings.

Lemma ordering_Z : ordering Z.compare.
Proof.
  repeat split.
  - intros a b. apply Z.compare_antisym.
  - intros a b c Hab. apply Z.compare_eq in Hab. by subst.
  - intros a b c. rewrite !Z.compare_gt_iff. lia.
Qed.

Lemma ordering_N : ordering N.compare.
Proof.
  repeat split.
  - intros a b. apply N.compare_antisym.
  - intros a b c Hab. apply N.compare_eq in Hab. by subst.
  - intros a b c. rewrite !N.compare_gt_iff. lia.
Qed.

Lemma ordering_bool : ordering Bool.compare.
Proof. repeat split; by intros [] [] ; try intros []. Qed.

Lemma ordering_ascii : ordering Ascii.compare.
Proof. apply (ordering_on N_of_ascii N.compare ordering_N). Qed.

Lemma ordering_string : ordering String.compare.
Proof.
  pose proof ordering_ascii as (Hanti & Hcong & Htrans).
  repeat split.
  - apply String.compare_antisym.
  - intros a b c Hab. apply String.compare_eq_iff in Hab. by subst.
  - intros a. induction a as [|x a IH]; intros [|y b] [|z c]; cbn; try done.
    destruct (Ascii.compare x y) eqn:Exy; [|done|];
      (destruct (Ascii.compare y z) eqn:Eyz; [|done|]); intros Hab Hbc.
    + rewrite (Hcong x y z Exy), Eyz. by apply (IH b c).
    + by rewrite (Hcong x y z Exy), Eyz.
    + by rewrite <- (ordering_eq_r Ascii.compare x y z ordering_ascii Eyz), Exy.
    + by rewrite (Htrans x y z Exy Eyz).
Qed.

Lemma ordering_datetime : ordering datetime_compare.
Proof.
  unfold datetime_compare.
  repeat (apply (ordering_lex (λ a b, _ a ?= _ b));
          [apply (ordering_on _ Z.compare ordering_Z)|]).
  apply (ordering_on _ Z.compare ordering_Z).
Qed.

Lemma datetime_compare_antisym (a b : datetime) :
  datetime_compare a b = CompOpp (datetime_compare b a).
Proof. apply ordering_datetime. Qed.

Lemma bson_compare_antisym (a b : pyval) :
  bson_compare a b = CompOpp (bson_compare b a).
Proof.
  destruct a as [|[]| | | |], b as [|[]| | | |]; try reflexivity; cbn.
  - apply Z.compare_antisym.
  - apply String.compare_antisym.
  - apply datetime_compare_antisym.
  - apply N.compare_antisym.
Qed.

(** The BSON order is transitive, across value types as well. *)
Lemma bson_compare_ge_trans (a b c : pyval) :
  bson_compare a b ≠ Lt → bson_compare b c ≠ Lt → bson_compare a c ≠ Lt.
Proof.
  destruct a, b, c; cbn; try done.
  - apply (ordering_ge_trans Bool.compare _ _ _ ordering_bool).
  - apply (ordering_ge_trans Z.compare _ _ _ ordering_Z).
  - apply (ordering_ge_trans String.compare _ _ _ ordering_string).
  - apply (ordering_ge_trans datetime_compare _ _ _ ordering_datetime).
  - apply (ordering_ge_trans N.compare _ _ _ ordering_N).
Qed.

Lemma before_descending (k : string) (d1 d2 : dict) :
  Is_true (Cursor.before [(k, -1)] d1 d2) ↔ descending_by k d1 d2.
Proof.
  unfold descending_by. cbn.
  destruct (bson_compare _ _); cbn; split; (done || congruence).
Qed.

#[local] Instance before_descending_total (k : string) :
  Total (λ d1 d2, Is_true (Cursor.before [(k, -1)] d1 d2)).
Proof.
  intros d1 d2. rewrite !before_descending. unfold descending_by.
  rewrite (bson_compare_antisym (Cursor.sort_key k d2)).
  destruct (bson_compare (Cursor.sort_key k d1) (Cursor.sort_key k d2));
    cbn; auto.
Qed.

#[local] Instance before_descending_trans (k : string) :
  Transitive (λ d1 d2, Is_true (Cursor.before [(k, -1)] d1 d2)).
Proof.
  intros d1 d2 d3. rewrite !before_descending. unfold descending_by.
  apply bson_compare_ge_trans.
Qed.

Lemma StronglySorted_iff {A} (R1 R2 : relation A) (l : list A) :
  (∀ x y, R1 x y ↔ R2 x y) → StronglySorted R1 l → StronglySorted R2 l.
Proof.
  intros HR. induction 1 as [|x l _ IH Hx]; constructor; [done|].
  eapply Forall_impl; [exact Hx|]. intros y. apply HR.
Qed.

(** Sorting descending on a field permutes the list and puts every
    record before all records that are not greater on the field. *)
Lemma cursor_sort_descending (k : string) (l : list dict) :
  Cursor.sort [(k, -1)] l ≡ₚ l
  ∧ StronglySorted (descending_by k) (Cursor.sort [(k, -1)] l).
Proof.
  split.
  - apply merge_sort_Permutation.
  - eapply StronglySorted_iff; [apply before_descending|].
    apply (StronglySorted_merge_sort _).
Qed.

Lemma drop_all_of_total (l : list dict) (skip : Z) :
  skip >= Z.of_nat (length l) → drop (Z.to_nat skip) l = [].
Proof. intros Hskip. apply drop_ge. lia. Qed.

Lemma Forall_list_filter {A} (P : A → Prop) (f : A → bool) (l : list A) :
  Forall P l → Forall P (List.filter f l).
Proof.
  induction 1 as [|x l Hx _ IH]; cbn; [constructor|].
  destruct (f x); [by constructor|done].
Qed.

(** The order [read_todos] puts the selected records in. *)
Lemma read_todos_order (sort_by : option string) (selected : list dict) :
  let sort_options : list (string * Z) :=
    if bool_decide (sort_by = Some "date") then [("created_at", -1)]
    else if bool_decide (sort_by = Some "completed") then [("completed", -1)]
    else [] in
  let ordered :=
    if bool_decide (sort_options ≠ []) then Cursor.sort sort_options selected
    else selected in
  ordered ≡ₚ selected
  ∧ (sort_by = Some "date" →
     StronglySorted (descending_by "created_at") ordered)
  ∧ (sort_by = Some "completed" →
     StronglySorted (descending_by "completed") ordered)
  ∧ (sort_by ≠ Some "date" → sort_by ≠ Some "completed" →
     ordered = selected).
Proof.
  cbv zeta. destruct (bool_decide (sort_by = Some "date")) eqn:Hdate.
  - apply bool_decide_eq_true in Hdate. rewrite bool_decide_eq_true_2 by done.
    destruct (cursor_sort_descending "created_at" selected) as [Hperm Hsorted].
    repeat split; try done. intros Hc. by rewrite Hc in Hdate.
  - apply bool_decide_eq_false in Hdate.
    destruct (bool_decide (sort_by = Some "completed")) eqn:Hcompleted.
    + apply bool_decide_eq_true in Hcompleted.
      rewrite bool_decide_eq_true_2 by done.
      destruct (cursor_sort_descending "completed" selected) as [Hperm Hsorted].
      repeat split; done.
    + apply bool_decide_eq_false in Hcompleted.
      rewrite bool_decide_eq_false_2 by (intros H; by apply H).
      repeat split; done.
Qed.

(** C8. A listing draws from all records when [include_deleted] is set
    and from the records with [deleted = False] otherwise. The selected
    records are put in descending order of [created_at] for
    [sort_by = "date"], of [completed] for [sort_by = "completed"], and
    kept in the collection's order otherwise; skip and limit are applied
    to the ordered list, and each record of the page is mapped to its
    response shape. The envelope carries the requested page and the
    totals of the selection; the collection is not changed. *)
Theorem read_todos_page
    (c : list dict) (include_deleted : bool) (sort_by : option string)
    (items_per_page page_number : Z) :
  0 < items_per_page → 0 < page_number →
  Forall (λ d : dict, is_Some (d !! "_id")) c →
  let selected := List.filter (listed include_deleted) c in
  let total_items := Z.of_nat (length selected) in
  ∃ ordered todos,
    read_todos include_deleted sort_by items_per_page page_number c
    = (inr (mk_PaginatedResponse page_number
              (ceil_div total_items items_per_page) items_per_page
              total_items todos), c)
    ∧ ordered ≡ₚ selected
    ∧ (sort_by = Some "date" →
       StronglySorted (descending_by "created_at") ordered)
    ∧ (sort_by = Some "completed" →
       StronglySorted (descending_by "completed") ordered)
    ∧ (sort_by ≠ Some "date" → sort_by ≠ Some "completed" →
       ordered = selected)
    ∧ Forall2 (λ d todo, format_todo_response (Some d) = inr todo)
        (take (Z.to_nat items_per_page)
           (drop (Z.to_nat ((page_number - 1) * items_per_page)) ordered))
        todos.
Proof.
  intros Hipp Hpage Hids selected total_items.
  pose proof (read_todos_order sort_by selected) as Horder.
  cbv zeta in Horder.
  pose proof (total_pages_ceil total_items items_per_page Hipp) as Hceil.
  unfold read_todos. run_handler. cbv zeta.
  unfold Collection.count_documents. rewrite !find_listed.
  fold selected. fold total_items. rewrite Hceil.
  set (sort_options :=
         if bool_decide (sort_by = Some "date") then [("created_at", -1)]
         else if bool_decide (sort_by = Some "completed")
              then [("completed", -1)] else []) in *.
  set (ordered :=
         if bool_decide (sort_options ≠ []) then Cursor.sort sort_options selected
         else selected) in *.
  destruct Horder as (Hperm & Hdate & Hcompleted & Hnone).
  exists ordered.
  destruct (bool_decide ((page_number - 1) * items_per_page >= total_items))
    eqn:Hskip.
  - (* beyond the last page *)
    apply bool_decide_eq_true in Hskip.
    exists []. split; [reflexivity|].
    rewrite drop_all_of_total
      by (by rewrite (Permutation_length Hperm)).
    rewrite take_nil. repeat split; (done || constructor).
  - (* a page of the ordered selection *)
    unfold Cursor.limit, Cursor.skip.
    rewrite (proj2 (Z.eqb_neq items_per_page 0)) by lia.
    rewrite !find_listed. fold selected. fold ordered.
    set (page := take (Z.to_nat items_per_page)
                   (drop (Z.to_nat ((page_number - 1) * items_per_page))
                      ordered)).
    assert (Forall (λ d : dict, is_Some (d !! "_id")) page) as Hpage_ids.
    { apply Forall_take, Forall_drop. rewrite Hperm.
      by apply Forall_list_filter. }
    destruct (format_all_found page Hpage_ids) as (todos & Hall & Hshape).
    rewrite Hall. exists todos. split; [reflexivity|].
    repeat split; done.
Qed.

Lemma read_todos_page_witness :
  let selected := List.filter (listed true) pantry in
  let total_items := Z.of_nat (length selected) in
  ∃ ordered todos,
    read_todos true (Some "completed") 1 1 pantry
    = (inr (mk_PaginatedResponse 1 (ceil_div total_items 1) 1 total_items
              todos), pantry)
    ∧ ordered ≡ₚ selected
    ∧ (Some "completed" = Some "date" →
       StronglySorted (descending_by "created_at") ordered)
    ∧ (Some "completed" = Some "completed" →
       StronglySorted (descending_by "completed") ordered)
    ∧ (Some "completed" ≠ Some "date" → Some "completed" ≠ Some "completed" →
       ordered = selected)
    ∧ Forall2 (λ d todo, format_todo_response (Some d) = inr todo)
        (take (Z.to_nat 1) (drop (Z.to_nat ((1 - 1) * 1)) ordered)) todos.
Proof.
  apply (read_todos_page pantry true (Some "completed") 1 1).
  - lia.
  - lia.
  - apply (bool_decide_unpack _). vm_compute. exact I.
Defined.

(** The sample collection listed with deleted records, completed first:
    the completed (and soft-deleted) record comes before the open one. *)
Example read_todos_completed_first :
  read_todos true (Some "completed") 20 1 pantry
  = (inr (mk_PaginatedResponse 1 1 20 2
            [delete "_id" (<["id" := VStr id2]> bread);
             delete "_id" (<["id" := VStr id1]> milk)]), pantry).
Proof. reflexivity. Qed.

(** Without [include_deleted] only the record that is not deleted is
    listed. *)
Example read_todos_hides_deleted :
  read_todos false None 20 1 pantry
  = (inr (mk_PaginatedResponse 1 1 20 1
            [delete "_id" (<["id" := VStr id1]> milk)]), pantry).
Proof. reflexivity. Qed.

(** ** Create *)

Lemma model_dump_title (todo : TodoCreate.t) :
  TodoCreate.model_dump todo !! "title" = Some (VStr (TodoCreate.title todo)).
Proof. reflexivity. Qed.

Lemma model_dump_description (todo : TodoCreate.t) :
  dict_get (TodoCreate.model_dump todo) "description" (VStr "")
  = from_option VStr VNone (TodoCreate.description todo).
Proof. reflexivity. Qed.

Lemma model_dump_completed (todo : TodoCreate.t) :
  dict_get (TodoCreate.model_dump todo) "completed" (VBool false)
  = VBool (TodoCreate.completed todo).
Proof. reflexivity. Qed.

(** What [create_todo] stores and returns: the document appended to the
    collection under a new id, and its response shape. *)
Lemma create_todo_stored (todo : TodoCreate.t) (now : datetime) (c : list dict) :
  let doc : dict :=
    {[ "title" := VStr (TodoCreate.title todo);
       "description" := from_option VStr VNone (TodoCreate.description todo);
       "completed" := VBool (TodoCreate.completed todo);
       "created_at" := VDate now;
       "updated_at" := VDate now;
       "deleted" := VBool false;
       "deleted_at" := VNone ]} in
  let oid := Collection.new_ObjectId c in
  let stored : dict := <["_id" := VOid oid]> doc in
  create_todo todo now c
  = (inr (delete "_id" (<["id" := VStr (ObjectId.str oid)]> stored)),
     c ++ [stored]).
Proof.
  cbv zeta. unfold create_todo, create_todo_document. run_handler.
  rewrite model_dump_title, model_dump_description, model_dump_completed.
  unfold Collection.insert_one. cbn beta iota zeta.
  rewrite find_one_at.
  - by erewrite format_todo_response_found by apply lookup_insert_eq.
  - apply new_ObjectId_fresh.
  - apply matches_id. apply lookup_insert_eq.
Qed.

(** C5, at the input where the code departs from it. The mapper's
    default for a missing ["description"] key is the empty text, but the
    dictionary it receives from [model_dump()] always carries the key,
    holding [None] when the request gave no description: the record
    stored and returned for [{"title": "buy milk"}] has
    [description = None], not [""]. Its other fields are as C5 says. *)
Theorem create_todo_description_is_None_not_empty :
  create_todo_document {[ "title" := VStr "buy milk" ]} noon
  = inr {[ "title" := VStr "buy milk"; "description" := VStr "";
           "completed" := VBool false; "created_at" := VDate noon;
           "updated_at" := VDate noon; "deleted" := VBool false;
           "deleted_at" := VNone ]}
  ∧ json buy_milk_request = Some (JObject {[ "title" := VStr "buy milk" ]})
  ∧ TodoCreate.model_validate {[ "title" := VStr "buy milk" ]}
    = inr (TodoCreate.mk "buy milk" None false)
  ∧ ∃ r stored,
      post_todos buy_milk_request noon [] = (mk_JSONResponse 200 (Value r), [stored])
      ∧ stored !! "description" = Some VNone
      ∧ r !! "description" = Some VNone
      ∧ stored !! "description" ≠ Some (VStr "")
      ∧ stored !! "title" = Some (VStr "buy milk")
      ∧ stored !! "completed" = Some (VBool false)
      ∧ stored !! "created_at" = stored !! "updated_at"
      ∧ stored !! "deleted" = Some (VBool false)
      ∧ stored !! "deleted_at" = Some VNone.
Proof.
  split; [reflexivity|]. split; [reflexivity|]. split; [reflexivity|].
  eexists _, _. split; [reflexivity|].
  repeat split; done.
Qed.

(** ** The soft-delete invariant *)

Lemma consistent_created (todo : TodoCreate.t) (now : datetime) (oid : ObjectId.t) :
  soft_delete_consistent
    (<["_id" := VOid oid]>
       {[ "title" := VStr (TodoCreate.title todo);
          "description" := from_option VStr VNone (TodoCreate.description todo);
          "completed" := VBool (TodoCreate.completed todo);
          "created_at" := VDate now;
          "updated_at" := VDate now;
          "deleted" := VBool false;
          "deleted_at" := VNone ]}).
Proof. left. split; reflexivity. Qed.

(** A [$set] that names neither field keeps the state of the record. *)
Lemma consistent_frame (upd d : dict) :
  upd !! "deleted" = None → upd !! "deleted_at" = None →
  soft_delete_consistent d → soft_delete_consistent (upd ∪ d).
Proof.
  intros H1 H2. unfold soft_delete_consistent.
  by rewrite !lookup_union_r.
Qed.

(** The write of a soft delete sets both fields at once. *)
Lemma consistent_soft_delete (now : datetime) (d : dict) :
  soft_delete_consistent
    ({[ "deleted" := VBool true; "deleted_at" := VDate now ]} ∪ d).
Proof.
  destruct (soft_delete_set_lookup d now) as (Hdel & Hat & _).
  right. eauto.
Qed.

(** So does the write of a restore. *)
Lemma consistent_restore (d : dict) :
  soft_delete_consistent
    ({[ "deleted" := VBool false; "deleted_at" := VNone ]} ∪ d).
Proof.
  left. split; by apply lookup_union_Some_l.
Qed.

(** The collection after an update: untouched, or one [$set] that names
    neither [deleted] nor [deleted_at]. *)
Lemma update_todo_writes (todo_id : string) (todo : TodoUpdate.t)
    (now : datetime) (c : list dict) :
  (update_todo todo_id todo now c).2 = c
  ∨ ∃ q upd : dict,
      (update_todo todo_id todo now c).2 = Collection.update_one q upd c
      ∧ upd !! "deleted" = None ∧ upd !! "deleted_at" = None.
Proof.
  unfold update_todo. destruct (ObjectId.parse todo_id); [|by left].
  run_handler. destruct (Collection.find_one _ c); [|by left].
  destruct (truthy _); [by left|].
  destruct (bool_decide _); [|by left].
  right. eexists _, _. split; [reflexivity|].
  rewrite !lookup_insert_ne by done.
  split; apply update_data_other; not_in_keys.
Qed.

Lemma delete_todo_writes (todo_id : string) (permanent : bool)
    (now : datetime) (c : list dict) :
  (delete_todo todo_id permanent now c).2 = c
  ∨ (∃ q, (delete_todo todo_id permanent now c).2 = Collection.delete_one q c)
  ∨ ∃ q, (delete_todo todo_id permanent now c).2
         = Collection.update_one q
             {[ "deleted" := VBool true; "deleted_at" := VDate now ]} c.
Proof.
  unfold delete_todo. destruct (ObjectId.parse todo_id); [|by left].
  run_handler. destruct (Collection.find_one _ c); [|by left].
  destruct permanent; cbn beta iota.
  - right; left. eexists. by destruct (format_todo_response _).
  - right; right. eexists. by destruct (format_todo_response _).
Qed.

Lemma restore_todo_writes (todo_id : string) (c : list dict) :
  (restore_todo todo_id c).2 = c
  ∨ ∃ q, (restore_todo todo_id c).2
         = Collection.update_one q
             {[ "deleted" := VBool false; "deleted_at" := VNone ]} c.
Proof.
  unfold restore_todo. destruct (ObjectId.parse todo_id); [|by left].
  run_handler. destruct (Collection.find_one _ c); [|by left].
  destruct (negb _); [by left|].
  right. eexists. by destruct (format_todo_response _).
Qed.

(** Every handler keeps the invariant. *)
Lemma perform_consistent (op : call) (now : datetime) (c : list dict) :
  Forall soft_delete_consistent c →
  Forall soft_delete_consistent (perform op now c).
Proof.
  intros Hc. destruct op as [todo|todo_id todo|todo_id permanent|todo_id];
    unfold perform.
  - rewrite create_todo_stored. cbn [snd].
    apply Forall_app. split; [done|].
    constructor; [apply consistent_created|constructor].
  - destruct (update_todo_writes todo_id todo now c)
      as [->|(q & upd & -> & H1 & H2)]; [done|].
    apply update_one_Forall; [|done]. intros d. by apply consistent_frame.
  - destruct (delete_todo_writes todo_id permanent now c)
      as [->|[[q ->]|[q ->]]]; [done| |].
    + by apply delete_one_Forall.
    + apply update_one_Forall; [|done]. intros d _.
      apply consistent_soft_delete.
  - destruct (restore_todo_writes todo_id c) as [->|[q ->]]; [done|].
    apply update_one_Forall; [|done]. intros d _. apply consistent_restore.
Qed.

Lemma run_consistent (history : list (call * datetime)) (c : list dict) :
  Forall soft_delete_consistent c →
  Forall soft_delete_consistent (run history c).
Proof.
  revert c. induction history as [|[op now] rest IH]; intros c Hc; [done|].
  cbn [run]. by apply IH, perform_consistent.
Qed.

(** Every record of a collection built by the handlers carries an
    ["_id"], as the listing needs it. *)
Lemma run_has_id (history : list (call * datetime)) (c : list dict) :
  Forall (λ d : dict, is_Some (d !! "_id")) c →
  Forall (λ d : dict, is_Some (d !! "_id")) (run history c).
Proof.
  assert (∀ upd d : dict, is_Some (d !! "_id") → is_Some ((upd ∪ d) !! "_id"))
    as Hset.
  { intros upd d Hd. apply lookup_union_is_Some. by right. }
  revert c. induction history as [|[op now] rest IH]; intros c Hc; [done|].
  cbn [run]. apply IH.
  destruct op as [todo|todo_id todo|todo_id permanent|todo_id]; unfold perform.
  - rewrite create_todo_stored. cbn [snd].
    apply Forall_app. split; [done|].
    constructor; [|constructor]. by rewrite lookup_insert_eq.
  - destruct (update_todo_writes todo_id todo now c)
      as [->|(q & upd & -> & _)]; [done|].
    by apply update_one_Forall; [apply Hset|].
  - destruct (delete_todo_writes todo_id permanent now c)
      as [->|[[q ->]|[q ->]]]; [done| |].
    + by apply delete_one_Forall.
    + by apply update_one_Forall; [apply Hset|].
  - destruct (restore_todo_writes todo_id c) as [->|[q ->]]; [done|].
    by apply update_one_Forall; [apply Hset|].
Qed.

(** C1. In every collection that the handlers create, update, delete
    (soft or permanent) and restore build from the empty one, each
    record carries a boolean [deleted] and a [deleted_at], and [deleted]
    is true exactly when [deleted_at] is not null: a created record is
    active, soft delete and restore each write both fields in one
    [$set], and an update writes neither. *)
Theorem deleted_iff_deleted_at (history : list (call * datetime)) :
  Forall (λ d : dict,
            ∃ (b : bool) (v : pyval),
              d !! "deleted" = Some (VBool b)
              ∧ d !! "deleted_at" = Some v
              ∧ (b = true ↔ v ≠ VNone))
         (run history []).
Proof.
  eapply Forall_impl; [apply run_consistent; constructor|].
  intros d [[Hdel Hat]|[Hdel [t Hat]]].
  - exists false, VNone. repeat split; done.
  - exists true, (VDate t). repeat split; done.
Qed.

(** A sample history: create, soft-delete, restore, update, delete
    again. *)
Example sample_history_outcome :
  (λ d : dict, (d !! "deleted", d !! "deleted_at", d !! "completed"))
  <$> run [(CreateTodo (TodoCreate.mk "buy milk" None false), noon);
           (DeleteTodo id1 false, evening);
           (RestoreTodo id1, evening);
           (UpdateTodo id1 done_null_description, evening);
           (DeleteTodo id1 false, evening)] []
  = [(Some (VBool true), Some (VDate evening), Some (VBool true))].
Proof. reflexivity. Qed.

(** ** Validation of a create request *)






Example create_without_title_response :
  (post_todos no_title_request noon pantry).1
  = mk_JSONResponse 400
      (InvalidRequest "Invalid request format"
         "Your request contains invalid fields. Please check and correct them."
         [("body → title", "Field required",
           JObject {[ "description" := VStr "rye" ]})]).
Proof. reflexivity. Qed.

(** How the framework classifies content types. *)
Example reads_as_json_values :
  reads_as_json None = true
  ∧ reads_as_json (Some "") = true
  ∧ reads_as_json (Some "application/json") = true
  ∧ reads_as_json (Some "Application/JSON") = true
  ∧ reads_as_json (Some " application/json ") = true
  ∧ reads_as_json (Some "application/json; charset=utf-8") = true
  ∧ reads_as_json (Some "application/merge-patch+json") = true
  ∧ reads_as_json (Some "application/jsonx") = false
  ∧ reads_as_json (Some "application/json/x") = false
  ∧ reads_as_json (Some "json") = false
  ∧ reads_as_json (Some "text/plain") = false.
Proof. repeat split. Qed.

(** * Further properties of the handlers *)

(** ** The response mapper *)

(** X1. For a document that carries ["_id"], [format_todo_response]
    returns the document without ["_id"], with ["id"] holding the text
    of the identity (whatever ["id"] held before) and every other field
    as it was. *)
Theorem format_todo_response_renames_id (d : dict) (v : pyval) :
  d !! "_id" = Some v →
  ∃ r, format_todo_response (Some d) = inr r
    ∧ r !! "_id" = None
    ∧ r !! "id" = Some (VStr (py_str v))
    ∧ ∀ k, k ≠ "_id" → k ≠ "id" → r !! k = d !! k.
Proof.
  intros Hid. eexists. split; [by apply format_todo_response_found|].
  split; [by rewrite lookup_delete_eq|].
  split; [rewrite lookup_delete_ne by done; by rewrite lookup_insert_eq|].
  intros k H1 H2. by apply response_lookup.
Qed.

Lemma format_todo_response_renames_id_witness :
  ∃ r, format_todo_response (Some milk) = inr r
    ∧ r !! "_id" = None
    ∧ r !! "id" = Some (VStr (py_str (VOid 1)))
    ∧ ∀ k, k ≠ "_id" → k ≠ "id" → r !! k = milk !! k.
Proof.
  apply (format_todo_response_renames_id milk (VOid 1)). reflexivity.
Defined.

(** X2. Whatever it is given, [format_todo_response] never returns a
    dictionary that still has ["_id"]; it returns the empty dictionary
    exactly for an absent or empty document, and the only exception it
    raises is [KeyError('_id')], for a non-empty document without
    ["_id"]. *)
Theorem format_todo_response_outcomes (todo_document : option dict) :
  match format_todo_response todo_document with
  | inr r =>
      r !! "_id" = None
      ∧ (r = ∅ ↔ todo_document = None ∨ todo_document = Some ∅)
  | inl e =>
      e = KeyError "_id"
      ∧ ∃ d, todo_document = Some d ∧ d ≠ ∅ ∧ d !! "_id" = None
  end.
Proof.
  destruct todo_document as [d|]; cbn [format_todo_response].
  - case_bool_decide as Hempty.
    + subst d. split; [apply lookup_empty|]. split; auto.
    + destruct (d !! "_id") as [v|] eqn:Hid.
      * split; [by rewrite lookup_delete_eq|]. split.
        -- intros Hr. exfalso.
           assert (delete "_id" (<["id" := VStr (py_str v)]> d) !! "id"
                   = Some (VStr (py_str v))) as Hlook.
           { rewrite lookup_delete_ne by done. by rewrite lookup_insert_eq. }
           rewrite Hr in Hlook. by rewrite lookup_empty in Hlook.
        -- intros [|[= ->]]; done.
      * split; [done|]. by exists d.
  - split; [apply lookup_empty|]. split; auto.
Qed.

(** ** Create *)

(** X3. [create_todo] never raises for a validated input: it appends
    exactly one record, leaving the records present in their places and
    untouched; the new record's id is carried by no earlier record, its
    fields are the dumped model's ([description] is [None] when the
    request gave none), both timestamps are the clock reading, and the
    handler returns its response shape. *)
Theorem create_todo_appends_one
    (todo : TodoCreate.t) (now : datetime) (c : list dict) :
  ∃ (oid : ObjectId.t) (stored r : dict),
    create_todo todo now c = (inr r, c ++ [stored])
    ∧ stored !! "_id" = Some (VOid oid)
    ∧ Forall (λ d : dict, d !! "_id" ≠ Some (VOid oid)) c
    ∧ format_todo_response (Some stored) = inr r
    ∧ r !! "id" = Some (VStr (ObjectId.str oid))
    ∧ stored !! "title" = Some (VStr (TodoCreate.title todo))
    ∧ stored !! "description"
      = Some (from_option VStr VNone (TodoCreate.description todo))
    ∧ stored !! "completed" = Some (VBool (TodoCreate.completed todo))
    ∧ stored !! "created_at" = Some (VDate now)
    ∧ stored !! "updated_at" = Some (VDate now)
    ∧ stored !! "deleted" = Some (VBool false)
    ∧ stored !! "deleted_at" = Some VNone.
Proof.
  pose proof (create_todo_stored todo now c) as Hrun. cbv zeta in Hrun.
  eexists _, _, _. split; [exact Hrun|].
  split; [apply lookup_insert_eq|].
  split.
  { eapply Forall_impl; [apply new_ObjectId_fresh|].
    intros d Hd Hid. apply matches_id in Hid. congruence. }
  split; [by erewrite format_todo_response_found by apply lookup_insert_eq|].
  split; [rewrite lookup_delete_ne by done; by rewrite lookup_insert_eq|].
  repeat split; reflexivity.
Qed.

(** X4. Round trip: the ["id"] text that [create_todo] returns, given
    back as path identifier, makes [read_todo] return the very response
    the create returned (for an id within the 12 bytes of an
    [ObjectId]). *)
Theorem create_then_read_todo
    (todo : TodoCreate.t) (now : datetime) (c : list dict) :
  (Collection.new_ObjectId c < 2 ^ 96)%N →
  ∃ (r : dict) (c' : list dict) (todo_id : string),
    create_todo todo now c = (inr r, c')
    ∧ r !! "id" = Some (VStr todo_id)
    ∧ read_todo todo_id c' = (inr r, c').
Proof.
  intros Hbound.
  pose proof (create_todo_stored todo now c) as Hrun. cbv zeta in Hrun.
  eexists _, _, (ObjectId.str (Collection.new_ObjectId c)).
  split; [exact Hrun|].
  split; [rewrite lookup_delete_ne by done; by rewrite lookup_insert_eq|].
  unfold read_todo. rewrite ObjectId_parse_str by done. run_handler.
  rewrite find_one_at;
    [|apply new_ObjectId_fresh|apply matches_id, lookup_insert_eq].
  change (truthy (dict_get _ "deleted" (VBool false))) with false.
  cbn iota. by erewrite format_todo_response_found by apply lookup_insert_eq.
Qed.

Lemma create_then_read_todo_witness :
  ∃ (r : dict) (c' : list dict) (todo_id : string),
    create_todo (TodoCreate.mk "water plants" None false) evening pantry
    = (inr r, c')
    ∧ r !! "id" = Some (VStr todo_id)
    ∧ read_todo todo_id c' = (inr r, c').
Proof.
  apply (create_then_read_todo (TodoCreate.mk "water plants" None false)
           evening pantry).
  reflexivity.
Defined.

(** ** Identities *)

(** The collection after any call: as before, with one record appended
    under a new identity, with one record removed, or with one [$set]
    over the six fields the handlers write. *)
Lemma perform_writes (op : call) (now : datetime) (c : list dict) :
  perform op now c = c
  ∨ (∃ stored : dict,
       perform op now c = c ++ [stored]
       ∧ stored !! "_id" = Some (VOid (Collection.new_ObjectId c)))
  ∨ (∃ q, perform op now c = Collection.delete_one q c)
  ∨ ∃ q upd : dict,
      perform op now c = Collection.update_one q upd c
      ∧ ∀ k, k ∉ ["title"; "description"; "completed"; "updated_at";
                  "deleted"; "deleted_at"] → upd !! k = None.
Proof.
  destruct op as [todo|todo_id todo|todo_id permanent|todo_id]; unfold perform.
  - right; left. rewrite create_todo_stored. eexists. split; [reflexivity|].
    apply lookup_insert_eq.
  - unfold update_todo. destruct (ObjectId.parse todo_id); [|by left].
    run_handler. destruct (Collection.find_one _ c); [|by left].
    destruct (truthy _); [by left|].
    destruct (bool_decide _); [|by left].
    right; right; right. eexists _, _. split; [reflexivity|].
    intros k Hk. rewrite lookup_insert_ne by not_in_keys.
    apply update_data_other. not_in_keys.
  - destruct (delete_todo_writes todo_id permanent now c)
      as [->|[[q ->]|[q ->]]]; [by left|right; right; left; by eexists|].
    right; right; right. eexists _, _. split; [reflexivity|].
    intros k Hk. rewrite lookup_insert_ne by not_in_keys.
    apply lookup_singleton_ne. not_in_keys.
  - destruct (restore_todo_writes todo_id c) as [->|[q ->]]; [by left|].
    right; right; right. eexists _, _. split; [reflexivity|].
    intros k Hk. rewrite lookup_insert_ne by not_in_keys.
    apply lookup_singleton_ne. not_in_keys.
Qed.


Lemma ids_update_one (q upd : dict) (c : list dict) :
  upd !! "_id" = None → ids (Collection.update_one q upd c) = ids c.
Proof.
  intros Hupd. unfold ids. induction c as [|d c IH]; [done|].
  cbn [Collection.update_one]. destruct (Collection.matches q d); csimpl.
  - by rewrite lookup_union_r.
  - by rewrite IH.
Qed.

Lemma ids_delete_one (q : dict) (c : list dict) :
  ids (Collection.delete_one q c) `sublist_of` ids c.
Proof.
  unfold ids. induction c as [|d c IH]; [done|].
  cbn [Collection.delete_one]. destruct (Collection.matches q d); csimpl.
  - by apply sublist_cons.
  - by apply sublist_skip.
Qed.

(** X5. Only [create_todo] adds an identity and only a permanent delete
    removes one: an update, a soft delete and a restore leave the
    identities of the collection and their order exactly as they were,
    whatever they return or raise; a create appends the new identity at
    the end; a permanent delete leaves a sublist. *)
Theorem perform_keeps_identities (op : call) (now : datetime) (c : list dict) :
  match op with
  | CreateTodo _ =>
      ids (perform op now c)
      = ids c ++ [Some (VOid (Collection.new_ObjectId c))]
  | DeleteTodo _ true => ids (perform op now c) `sublist_of` ids c
  | _ => ids (perform op now c) = ids c
  end.
Proof.
  destruct op as [todo|todo_id todo|todo_id [|]|todo_id]; unfold perform.
  - rewrite create_todo_stored. cbn [snd]. unfold ids.
    rewrite fmap_app. csimpl. by rewrite lookup_insert_eq.
  - unfold update_todo. destruct (ObjectId.parse todo_id); [|done].
    run_handler. destruct (Collection.find_one _ c); [|done].
    destruct (truthy _); [done|].
    destruct (bool_decide _); [|done]. cbn [snd].
    apply ids_update_one. rewrite lookup_insert_ne by done.
    apply update_data_other. not_in_keys.
  - destruct (delete_todo_writes todo_id true now c)
      as [->|[[q ->]|[q Hq]]]; [done|apply ids_delete_one|].
    rewrite Hq. by rewrite ids_update_one.
  - unfold delete_todo. destruct (ObjectId.parse todo_id); [|done].
    run_handler. destruct (Collection.find_one _ c); [|done].
    cbn beta iota. destruct (format_todo_response _); by apply ids_update_one.
  - destruct (restore_todo_writes todo_id c) as [->|[q ->]]; [done|].
    by apply ids_update_one.
Qed.

Lemma new_ObjectId_not_in_ids (c : list dict) :
  Some (VOid (Collection.new_ObjectId c)) ∉ ids c.
Proof.
  unfold ids. intros Hin. apply list_elem_of_fmap in Hin as (d & Hid & Hd).
  pose proof (new_ObjectId_fresh c) as Hfresh.
  rewrite Forall_forall in Hfresh. specialize (Hfresh d Hd).
  apply not_true_iff_false in Hfresh. apply Hfresh. by apply matches_id.
Qed.

Lemma Forall_of_sublist {A} (P : A → Prop) (l1 l2 : list A) :
  l1 `sublist_of` l2 → Forall P l2 → Forall P l1.
Proof.
  induction 1 as [|x l1 l2 _ IH|x l1 l2 _ IH]; intros Hl2; [done| |].
  - inversion Hl2; subst. constructor; auto.
  - inversion Hl2; subst. auto.
Qed.

(** X6. In every collection the handlers build from the empty one, no
    two records carry the same identity, and every identity is an
    [ObjectId]. *)
Theorem identities_unique (history : list (call * datetime)) :
  NoDup (ids (run history []))
  ∧ Forall (λ i, ∃ o, i = Some (VOid o)) (ids (run history [])).
Proof.
  assert (∀ h c,
            NoDup (ids c) ∧ Forall (λ i, ∃ o, i = Some (VOid o)) (ids c) →
            NoDup (ids (run h c))
            ∧ Forall (λ i, ∃ o, i = Some (VOid o)) (ids (run h c))) as Hrun.
  { induction h as [|[op now] rest IH]; intros c [Hnodup Hoid]; [done|].
    cbn [run]. apply IH.
    destruct (perform_writes op now c)
      as [->|[(stored & -> & Hid)|[[q ->]|(q & upd & -> & Hupd)]]].
    - done.
    - unfold ids in *. rewrite fmap_app. csimpl. rewrite Hid. split.
      + apply NoDup_app. split; [done|]. split; [|apply NoDup_singleton].
        intros i Hi Hnew. apply list_elem_of_singleton in Hnew. subst i.
        by apply new_ObjectId_not_in_ids in Hi.
      + apply Forall_app. split; [done|]. constructor; [eauto|constructor].
    - pose proof (ids_delete_one q c) as Hsub.
      split; [by eapply sublist_NoDup|by eapply Forall_of_sublist].
    - rewrite ids_update_one by (apply Hupd; not_in_keys). done. }
  apply Hrun. split; constructor.
Qed.

(** ** Permanent delete and restore *)

Lemma unique_id_rest (c1 c2 : list dict) (d : dict) (v : pyval) :
  NoDup (ids (c1 ++ d :: c2)) → d !! "_id" = Some v →
  Forall (λ x, Collection.matches {[ "_id" := v ]} x = false) c2.
Proof.
  unfold ids. rewrite fmap_app, fmap_cons. intros Hnodup Hd.
  apply NoDup_app in Hnodup as (_ & _ & Hrest).
  apply NoDup_cons in Hrest as [Hnotin _].
  apply Forall_forall. intros x Hx. apply not_true_is_false.
  intros Hm. apply matches_id in Hm. apply Hnotin.
  apply list_elem_of_fmap. exists x. split; [congruence|done].
Qed.

(** X7. A permanent delete of an existing record, soft-deleted or not,
    removes that record and nothing else, and returns the response
    shape of the removed record; with identities unique, a later
    [read_todo] of the same id answers 404 "Todo not found". *)
Theorem delete_todo_permanent_removes
    (c : list dict) (todo_id : string) (obj_id : ObjectId.t) (d : dict)
    (now : datetime) :
  ObjectId.parse todo_id = Some obj_id →
  Collection.find_one {[ "_id" := VOid obj_id ]} c = Some d →
  NoDup (ids c) →
  ∃ c1 c2 r,
    c = c1 ++ d :: c2
    ∧ delete_todo todo_id true now c = (inr r, c1 ++ c2)
    ∧ format_todo_response (Some d) = inr r
    ∧ read_todo todo_id (c1 ++ c2)
      = (inl (HTTPException 404 "Todo not found"), c1 ++ c2).
Proof.
  intros Hparse Hfind Hnodup.
  destruct (find_one_Some _ _ _ Hfind) as (c1 & c2 & Hc & Hc1 & Hd).
  pose proof (proj1 (matches_id _ _) Hd) as Hid. subst c.
  pose proof (unique_id_rest c1 c2 d _ Hnodup Hid) as Hc2.
  pose proof (format_todo_response_found d _ Hid) as Hfmt.
  eexists c1, c2, _. split; [done|]. split; [|split; [exact Hfmt|]].
  - unfold delete_todo. rewrite Hparse. run_handler. rewrite Hfind.
    rewrite Hfmt. by rewrite delete_one_at.
  - unfold read_todo. rewrite Hparse. run_handler.
    rewrite (proj2 (find_one_None _ (c1 ++ c2))); [done|].
    apply Forall_app. by split.
Qed.

Lemma delete_todo_permanent_removes_witness :
  ∃ c1 c2 r,
    pantry = c1 ++ bread :: c2
    ∧ delete_todo id2 true evening pantry = (inr r, c1 ++ c2)
    ∧ format_todo_response (Some bread) = inr r
    ∧ read_todo id2 (c1 ++ c2)
      = (inl (HTTPException 404 "Todo not found"), c1 ++ c2).
Proof.
  apply (delete_todo_permanent_removes pantry id2 2%N bread evening).
  - reflexivity.
  - reflexivity.
  - apply (bool_decide_unpack _). vm_compute. exact I.
Defined.

Lemma restore_set_lookup (d : dict) :
  let d' : dict := {[ "deleted" := VBool false; "deleted_at" := VNone ]} ∪ d in
  d' !! "deleted" = Some (VBool false)
  ∧ d' !! "deleted_at" = Some VNone
  ∧ ∀ k, k ≠ "deleted" → k ≠ "deleted_at" → d' !! k = d !! k.
Proof.
  repeat split.
  - by apply lookup_union_Some_l.
  - by apply lookup_union_Some_l.
  - intros k H1 H2. apply lookup_union_r.
    rewrite lookup_insert_ne by done. by rewrite lookup_singleton_ne.
Qed.

(** X8. A restore of an existing soft-deleted record writes
    [deleted = False] and [deleted_at = None] into that record only,
    keeps its other fields, and, unlike delete, returns the record as it
    is after the write; [read_todo] then returns the same response. *)
Theorem restore_todo_restores
    (c : list dict) (todo_id : string) (obj_id : ObjectId.t) (d : dict) :
  ObjectId.parse todo_id = Some obj_id →
  Collection.find_one {[ "_id" := VOid obj_id ]} c = Some d →
  deleted_flag d = true →
  ∃ c1 c2 d' r,
    c = c1 ++ d :: c2
    ∧ restore_todo todo_id c = (inr r, c1 ++ d' :: c2)
    ∧ d' !! "deleted" = Some (VBool false)
    ∧ d' !! "deleted_at" = Some VNone
    ∧ (∀ k, k ≠ "deleted" → k ≠ "deleted_at" → d' !! k = d !! k)
    ∧ format_todo_response (Some d') = inr r
    ∧ r !! "deleted" = Some (VBool false)
    ∧ r !! "deleted_at" = Some VNone
    ∧ read_todo todo_id (c1 ++ d' :: c2) = (inr r, c1 ++ d' :: c2).
Proof.
  intros Hparse Hfind Hdeleted. unfold deleted_flag in Hdeleted.
  destruct (find_one_Some _ _ _ Hfind) as (c1 & c2 & Hc & Hc1 & Hd).
  pose proof (proj1 (matches_id _ _) Hd) as Hid. subst c.
  destruct (restore_set_lookup d) as (Hdel & Hat & Hframe).
  set (d' := {[ "deleted" := VBool false; "deleted_at" := VNone ]} ∪ d) in *.
  assert (d' !! "_id" = Some (VOid obj_id)) as Hid'
    by (by rewrite Hframe).
  pose proof (format_todo_response_found d' _ Hid') as Hfmt.
  assert (Collection.find_one {[ "_id" := VOid obj_id ]} (c1 ++ d' :: c2)
          = Some d') as Hfind'
    by (apply find_one_at; [done|by apply matches_id]).
  eexists c1, c2, d', _. split; [done|].
  split.
  { unfold restore_todo. rewrite Hparse. run_handler.
    rewrite Hfind, Hdeleted. cbn [negb]. rewrite update_one_at by done.
    fold d'. by rewrite Hfind', Hfmt. }
  split; [done|]. split; [done|]. split; [done|]. split; [exact Hfmt|].
  split; [by rewrite response_lookup|]. split; [by rewrite response_lookup|].
  unfold read_todo. rewrite Hparse. run_handler. rewrite Hfind'.
  unfold dict_get. rewrite Hdel. cbn [truthy]. by rewrite Hfmt.
Qed.

Lemma restore_todo_restores_witness :
  ∃ c1 c2 d' r,
    pantry = c1 ++ bread :: c2
    ∧ restore_todo id2 pantry = (inr r, c1 ++ d' :: c2)
    ∧ d' !! "deleted" = Some (VBool false)
    ∧ d' !! "deleted_at" = Some VNone
    ∧ (∀ k, k ≠ "deleted" → k ≠ "deleted_at" → d' !! k = bread !! k)
    ∧ format_todo_response (Some d') = inr r
    ∧ r !! "deleted" = Some (VBool false)
    ∧ r !! "deleted_at" = Some VNone
    ∧ read_todo id2 (c1 ++ d' :: c2) = (inr r, c1 ++ d' :: c2).
Proof.
  apply (restore_todo_restores pantry id2 2%N bread).
  - reflexivity.
  - reflexivity.
  - reflexivity.
Defined.

(** ** How the calls compose *)

Lemma restore_after_soft_delete (d : dict) (now : datetime) :
  d !! "deleted" = Some (VBool false) → d !! "deleted_at" = Some VNone →
  ({[ "deleted" := VBool false; "deleted_at" := VNone ]} : dict)
  ∪ (({[ "deleted" := VBool true; "deleted_at" := VDate now ]} : dict) ∪ d)
  = d.
Proof.
  intros Hdel Hat. apply map_eq. intros k.
  destruct (restore_set_lookup
              (({[ "deleted" := VBool true; "deleted_at" := VDate now ]} : dict) ∪ d))
    as (H1 & H2 & Hframe).
  destruct (soft_delete_set_lookup d now) as (_ & _ & Hframe').
  destruct (decide (k = "deleted")) as [->|Hk1]; [by rewrite H1|].
  destruct (decide (k = "deleted_at")) as [->|Hk2]; [by rewrite H2|].
  rewrite Hframe by done. by apply Hframe'.
Qed.

(** X9. Round trip: a soft delete of an active record followed by a
    restore of the same id leaves the collection exactly as it was
    before the two calls ([updated_at] included), and the restore
    returns the response shape of the original record. *)
Theorem soft_delete_then_restore
    (c : list dict) (todo_id : string) (obj_id : ObjectId.t) (d : dict)
    (now : datetime) :
  ObjectId.parse todo_id = Some obj_id →
  Collection.find_one {[ "_id" := VOid obj_id ]} c = Some d →
  d !! "deleted" = Some (VBool false) →
  d !! "deleted_at" = Some VNone →
  restore_todo todo_id (delete_todo todo_id false now c).2
  = (format_todo_response (Some d), c).
Proof.
  intros Hparse Hfind Hdel Hat.
  destruct (delete_todo_soft c todo_id obj_id d now Hparse Hfind)
    as (c1 & c2 & Hc & Hc1 & Hid & Hrun).
  rewrite Hrun. cbn [snd].
  destruct (soft_delete_set_lookup d now) as (Hdel' & Hat' & Hframe).
  set (d1 := ({[ "deleted" := VBool true; "deleted_at" := VDate now ]} : dict) ∪ d)
    in *.
  assert (d1 !! "_id" = Some (VOid obj_id)) as Hid1 by (by rewrite Hframe).
  assert (Collection.matches {[ "_id" := VOid obj_id ]} d1 = true) as Hm1
    by (by apply matches_id).
  unfold restore_todo. rewrite Hparse. run_handler.
  rewrite find_one_at by done.
  unfold dict_get at 1. rewrite Hdel'. cbn [truthy negb].
  rewrite update_one_at by done. unfold d1.
  rewrite restore_after_soft_delete by done.
  rewrite <- Hc, Hfind.
  by rewrite (format_todo_response_found d _ Hid).
Qed.

Lemma soft_delete_then_restore_witness :
  restore_todo id1 (delete_todo id1 false evening pantry).2
  = (format_todo_response (Some milk), pantry).
Proof.
  apply (soft_delete_then_restore pantry id1 1%N milk evening).
  - reflexivity.
  - reflexivity.
  - reflexivity.
  - reflexivity.
Defined.

(** X10. After a soft delete of an existing record, [read_todo] of its
    id answers 404 "Todo was deleted" and [update_todo] answers 400
    "Cannot update deleted todo", for every update input, and neither
    writes. *)
Theorem soft_deleted_is_hidden_and_frozen
    (c : list dict) (todo_id : string) (obj_id : ObjectId.t) (d : dict)
    (now : datetime) :
  ObjectId.parse todo_id = Some obj_id →
  Collection.find_one {[ "_id" := VOid obj_id ]} c = Some d →
  let c' := (delete_todo todo_id false now c).2 in
  read_todo todo_id c' = (inl (HTTPException 404 "Todo was deleted"), c')
  ∧ ∀ (todo : TodoUpdate.t) (later : datetime),
      update_todo todo_id todo later c'
      = (inl (HTTPException 400 "Cannot update deleted todo"), c').
Proof.
  intros Hparse Hfind.
  destruct (delete_todo_soft c todo_id obj_id d now Hparse Hfind)
    as (c1 & c2 & Hc & Hc1 & Hid & Hrun).
  rewrite Hrun. cbn [snd].
  destruct (soft_delete_set_lookup d now) as (Hdel' & Hat' & Hframe).
  set (d1 := ({[ "deleted" := VBool true; "deleted_at" := VDate now ]} : dict) ∪ d)
    in *.
  assert (Collection.find_one {[ "_id" := VOid obj_id ]} (c1 ++ d1 :: c2)
          = Some d1) as Hfind1.
  { apply find_one_at; [done|]. apply matches_id. by rewrite Hframe. }
  split.
  - unfold read_todo. rewrite Hparse. run_handler. rewrite Hfind1.
    unfold dict_get. by rewrite Hdel'.
  - intros todo later. unfold update_todo. rewrite Hparse. run_handler.
    rewrite Hfind1. unfold dict_get. by rewrite Hdel'.
Qed.

Lemma soft_deleted_is_hidden_and_frozen_witness :
  let c' := (delete_todo id1 false evening pantry).2 in
  read_todo id1 c' = (inl (HTTPException 404 "Todo was deleted"), c')
  ∧ ∀ (todo : TodoUpdate.t) (later : datetime),
      update_todo id1 todo later c'
      = (inl (HTTPException 400 "Cannot update deleted todo"), c').
Proof.
  apply (soft_deleted_is_hidden_and_frozen pantry id1 1%N milk evening).
  - reflexivity.
  - reflexivity.
Defined.

(** X11. Update, delete and restore answer 400 "Invalid ID format" for a
    path identifier that is not an object id and 404 "Todo not found"
    for an id no record carries, whatever their other arguments, and
    write nothing in either case. *)
Theorem write_handlers_reject_unknown_ids (c : list dict) (todo_id : string) :
  (ObjectId.parse todo_id = None →
   ∀ (todo : TodoUpdate.t) (permanent : bool) (now : datetime),
     update_todo todo_id todo now c
     = (inl (HTTPException 400 "Invalid ID format"), c)
     ∧ delete_todo todo_id permanent now c
       = (inl (HTTPException 400 "Invalid ID format"), c)
     ∧ restore_todo todo_id c
       = (inl (HTTPException 400 "Invalid ID format"), c))
  ∧ (∀ obj_id,
       ObjectId.parse todo_id = Some obj_id →
       Collection.find_one {[ "_id" := VOid obj_id ]} c = None →
       ∀ (todo : TodoUpdate.t) (permanent : bool) (now : datetime),
         update_todo todo_id todo now c
         = (inl (HTTPException 404 "Todo not found"), c)
         ∧ delete_todo todo_id permanent now c
           = (inl (HTTPException 404 "Todo not found"), c)
         ∧ restore_todo todo_id c
           = (inl (HTTPException 404 "Todo not found"), c)).
Proof.
  split.
  - intros Hparse todo permanent now.
    unfold update_todo, delete_todo, restore_todo. by rewrite Hparse.
  - intros obj_id Hparse Hfind todo permanent now.
    unfold update_todo, delete_todo, restore_todo. rewrite Hparse.
    run_handler. by rewrite Hfind.
Qed.

Lemma write_handlers_reject_unknown_ids_witness :
  (update_todo "milk" done_null_description evening pantry
   = (inl (HTTPException 400 "Invalid ID format"), pantry)
   ∧ delete_todo "milk" true evening pantry
     = (inl (HTTPException 400 "Invalid ID format"), pantry)
   ∧ restore_todo "milk" pantry
     = (inl (HTTPException 400 "Invalid ID format"), pantry))
  ∧ (update_todo "0000000000000000000000ff" done_null_description evening pantry
     = (inl (HTTPException 404 "Todo not found"), pantry)
     ∧ delete_todo "0000000000000000000000ff" true evening pantry
       = (inl (HTTPException 404 "Todo not found"), pantry)
     ∧ restore_todo "0000000000000000000000ff" pantry
       = (inl (HTTPException 404 "Todo not found"), pantry)).
Proof.
  split.
  - apply (write_handlers_reject_unknown_ids pantry "milk"). reflexivity.
  - apply (write_handlers_reject_unknown_ids pantry "0000000000000000000000ff")
      with (obj_id := 255%N); reflexivity.
Defined.

(** X12. The two read handlers never write: whatever their arguments and
    whether they return or raise, the collection after [read_todo] and
    after [read_todos] is the collection before. *)
Theorem read_handlers_do_not_write (c : list dict) :
  (∀ todo_id, (read_todo todo_id c).2 = c)
  ∧ ∀ include_deleted sort_by items_per_page page_number,
      (read_todos include_deleted sort_by items_per_page page_number c).2 = c.
Proof.
  split.
  - intros todo_id. unfold read_todo.
    destruct (ObjectId.parse todo_id); [|done]. run_handler.
    destruct (Collection.find_one _ c); [|done].
    by destruct (truthy _).
  - intros include_deleted sort_by items_per_page page_number.
    unfold read_todos. run_handler. cbv zeta.
    destruct (bool_decide (_ >= _)); [done|]. cbn beta iota.
    by destruct (format_all _).
Qed.

Lemma updated_frame (todo : TodoUpdate.t) (now : datetime) (d : dict) (k : string) :
  k ∉ ["title"; "description"; "completed"; "updated_at"] →
  updated todo now d !! k = d !! k.
Proof.
  intros Hk. unfold updated. case_bool_decide; [|done].
  apply lookup_union_r. rewrite lookup_insert_ne by not_in_keys.
  apply update_data_other. not_in_keys.
Qed.

Lemma updated_idempotent (todo : TodoUpdate.t) (now : datetime) (d : dict) :
  updated todo now (updated todo now d) = updated todo now d.
Proof.
  unfold updated. case_bool_decide; [|done].
  by rewrite (assoc_L (∪)), (idemp_L (∪)).
Qed.

(** What [update_todo] does to a record it finds not soft-deleted. *)
Lemma update_todo_run (c1 c2 : list dict) (todo_id : string)
    (obj_id : ObjectId.t) (d : dict) (todo : TodoUpdate.t) (now : datetime) :
  ObjectId.parse todo_id = Some obj_id →
  Forall (λ x, Collection.matches {[ "_id" := VOid obj_id ]} x = false) c1 →
  d !! "_id" = Some (VOid obj_id) →
  deleted_flag d = false →
  update_todo todo_id todo now (c1 ++ d :: c2)
  = (format_todo_response (Some (updated todo now d)),
     c1 ++ updated todo now d :: c2).
Proof.
  intros Hparse Hc1 Hid Hactive. unfold deleted_flag in Hactive.
  assert (Collection.matches {[ "_id" := VOid obj_id ]} d = true) as Hd
    by (by apply matches_id).
  pose proof (updated_frame todo now d "_id" ltac:(not_in_keys)) as Hid'.
  unfold updated in *. unfold update_todo. rewrite Hparse. run_handler.
  rewrite find_one_at by done. rewrite Hactive.
  destruct (bool_decide _); run_handler.
  - rewrite update_one_at by done.
    rewrite find_one_at by (done || (apply matches_id; congruence)).
    by destruct (format_todo_response _).
  - rewrite find_one_at by done. by destruct (format_todo_response _).
Qed.

(** X13. An update is idempotent: for an existing record that is not
    soft-deleted, applying the same input at the same clock reading a
    second time returns the same response and leaves the collection as
    the first application left it. *)
Theorem update_todo_idempotent
    (c : list dict) (todo_id : string) (obj_id : ObjectId.t) (d : dict)
    (todo : TodoUpdate.t) (now : datetime) :
  ObjectId.parse todo_id = Some obj_id →
  Collection.find_one {[ "_id" := VOid obj_id ]} c = Some d →
  deleted_flag d = false →
  update_todo todo_id todo now (update_todo todo_id todo now c).2
  = update_todo todo_id todo now c.
Proof.
  intros Hparse Hfind Hactive.
  destruct (find_one_Some _ _ _ Hfind) as (c1 & c2 & -> & Hc1 & Hd).
  apply matches_id in Hd.
  rewrite (update_todo_run c1 c2 todo_id obj_id d) by done. cbn [snd].
  rewrite (update_todo_run c1 c2 todo_id obj_id (updated todo now d)).
  - by rewrite updated_idempotent.
  - done.
  - done.
  - rewrite updated_frame by not_in_keys. done.
  - unfold deleted_flag, dict_get in *.
    by rewrite updated_frame by not_in_keys.
Qed.

Lemma update_todo_idempotent_witness :
  update_todo id1 done_null_description evening
    (update_todo id1 done_null_description evening pantry).2
  = update_todo id1 done_null_description evening pantry.
Proof.
  apply (update_todo_idempotent pantry id1 1%N milk done_null_description
           evening).
  - reflexivity.
  - reflexivity.
  - reflexivity.
Defined.

(** ** Pages *)

Lemma format_all_response_of (l : list dict) :
  Forall (λ d : dict, is_Some (d !! "_id")) l →
  format_all l = inr (response_of <$> l).
Proof.
  induction 1 as [|d l [v Hv] _ IH]; [done|].
  assert (response_of d = delete "_id" (<["id" := VStr (py_str v)]> d)) as Hd
    by (unfold response_of; by rewrite (format_todo_response_found d v Hv)).
  cbn [format_all]. rewrite (format_todo_response_found d v Hv), IH.
  by rewrite fmap_cons, Hd.
Qed.

Lemma ordered_selection_Permutation (include_deleted : bool)
    (sort_by : option string) (c : list dict) :
  ordered_selection include_deleted sort_by c
  ≡ₚ List.filter (listed include_deleted) c.
Proof.
  unfold ordered_selection.
  repeat case_bool_decide; try done; apply merge_sort_Permutation.
Qed.

(** The page a listing returns, for accepted [items_per_page] and
    [page_number] and records that carry ["_id"]. *)
Lemma page_data_run (c : list dict) (include_deleted : bool)
    (sort_by : option string) (items_per_page page_number : Z) :
  0 < items_per_page → 0 < page_number →
  Forall (λ d : dict, is_Some (d !! "_id")) c →
  page_data include_deleted sort_by items_per_page page_number c
  = response_of
    <$> take (Z.to_nat items_per_page)
          (drop (Z.to_nat ((page_number - 1) * items_per_page))
             (ordered_selection include_deleted sort_by c)).
Proof.
  intros Hipp Hpage Hids.
  pose proof (ordered_selection_Permutation include_deleted sort_by c) as Hperm.
  unfold page_data, read_todos. run_handler. cbv zeta.
  unfold Collection.count_documents. rewrite find_listed.
  case_bool_decide as Hskip.
  - cbn [fst data].
    rewrite drop_all_of_total
      by (by rewrite (Permutation_length Hperm)).
    by rewrite take_nil.
  - cbn beta iota. unfold Cursor.limit, Cursor.skip.
    rewrite (proj2 (Z.eqb_neq items_per_page 0)) by lia.
    rewrite !find_listed.
    assert ((if bool_decide
                  ((if bool_decide (sort_by = Some "date")
                    then [("created_at", -1)]
                    else if bool_decide (sort_by = Some "completed")
                         then [("completed", -1)] else [])
                   ≠ ([] : list (string * Z)))
             then Cursor.sort
                    (if bool_decide (sort_by = Some "date")
                     then [("created_at", -1)]
                     else if bool_decide (sort_by = Some "completed")
                          then [("completed", -1)] else [])
                    (List.filter (listed include_deleted) c)
             else List.filter (listed include_deleted) c)
            = ordered_selection include_deleted sort_by c) as ->.
    { unfold ordered_selection. repeat case_bool_decide; done. }
    rewrite format_all_response_of; [done|].
    apply Forall_take, Forall_drop. rewrite Hperm.
    by apply Forall_list_filter.
Qed.

(** X14. A page never holds more than [items_per_page] records: it holds
    [items_per_page] of them while the selection lasts, the remainder on
    the last page, and none beyond. *)
Theorem page_length
    (c : list dict) (include_deleted : bool) (sort_by : option string)
    (items_per_page page_number : Z) :
  0 < items_per_page → 0 < page_number →
  Forall (λ d : dict, is_Some (d !! "_id")) c →
  let total_items :=
    Z.of_nat (length (List.filter (listed include_deleted) c)) in
  Z.of_nat
    (length (page_data include_deleted sort_by items_per_page page_number c))
  = Z.max 0 (Z.min items_per_page
               (total_items - (page_number - 1) * items_per_page)).
Proof.
  intros Hipp Hpage Hids total_items.
  rewrite page_data_run by done.
  rewrite length_fmap, length_take, length_drop.
  rewrite (Permutation_length
             (ordered_selection_Permutation include_deleted sort_by c)).
  fold total_items. nia.
Qed.

Lemma page_length_witness :
  let total_items := Z.of_nat (length (List.filter (listed true) pantry)) in
  Z.of_nat (length (page_data true (Some "date") 1 2 pantry))
  = Z.max 0 (Z.min 1 (total_items - (2 - 1) * 1)).
Proof.
  apply (page_length pantry true (Some "date") 1 2).
  - lia.
  - lia.
  - apply (bool_decide_unpack _). vm_compute. exact I.
Defined.

(** ** The create endpoint *)

Lemma model_validate_errors_nonempty (body : dict) (errors : list error_item) :
  TodoCreate.model_validate body = inl errors → errors ≠ [].
Proof.
  unfold TodoCreate.model_validate.
  destruct (match body !! "title" with
            | Some v => validate_str v
            | None => inl "Field required"
            end) as [e1|t];
    destruct (match body !! "description" with
              | Some v => validate_optional validate_str v
              | None => inr None
              end) as [e2|de];
    destruct (match body !! "completed" with
              | Some v => validate_bool v
              | None => inr false
              end) as [e3|co];
    intros [= <-]; done.
Qed.



(** A JSON object sent as [text/plain] is not read as JSON: the answer
    is 400 and nothing is stored. *)
Example plain_text_is_rejected :
  post_todos plain_text_request noon pantry
  = (mk_JSONResponse 400
       (InvalidRequest "Invalid request format"
          "Your request contains invalid fields. Please check and correct them."
          [("body",
            "Input should be a valid dictionary or object to extract fields from",
            JObject ∅)]), pantry).
Proof. reflexivity. Qed.

(** ** Update inputs *)

Lemma update_data_ext (t1 t2 : TodoUpdate.t) :
  effective (TodoUpdate.title t1) = effective (TodoUpdate.title t2) →
  effective (TodoUpdate.description t1) = effective (TodoUpdate.description t2) →
  effective (TodoUpdate.completed t1) = effective (TodoUpdate.completed t2) →
  not_None_items (TodoUpdate.model_dump_exclude_unset t1)
  = not_None_items (TodoUpdate.model_dump_exclude_unset t2).
Proof.
  intros H1 H2 H3. apply map_eq. intros k.
  rewrite !update_data_lookup. by rewrite H1, H2, H3.
Qed.

(** X17. [update_todo] depends on its input only through the fields
    that carry a value: two inputs that agree on those, such as one that
    omits a field and one that passes it as null, give the same response
    and the same collection, for every id and collection. *)
Theorem update_todo_null_is_omission
    (t1 t2 : TodoUpdate.t) (todo_id : string) (now : datetime) (c : list dict) :
  effective (TodoUpdate.title t1) = effective (TodoUpdate.title t2) →
  effective (TodoUpdate.description t1) = effective (TodoUpdate.description t2) →
  effective (TodoUpdate.completed t1) = effective (TodoUpdate.completed t2) →
  update_todo todo_id t1 now c = update_todo todo_id t2 now c.
Proof.
  intros H1 H2 H3. unfold update_todo.
  by rewrite (update_data_ext t1 t2 H1 H2 H3).
Qed.

Lemma update_todo_null_is_omission_witness :
  update_todo id1
    (TodoUpdate.mk (TodoUpdate.Provided None) (TodoUpdate.Provided None)
       (TodoUpdate.Provided (Some true))) evening pantry
  = update_todo id1
      (TodoUpdate.mk TodoUpdate.Unset TodoUpdate.Unset
         (TodoUpdate.Provided (Some true))) evening pantry.
Proof.
  apply update_todo_null_is_omission; reflexivity.
Defined.

(** ** Soft delete and the listing totals *)

(** X19. A soft delete of an active record takes exactly one record out
    of the default listing and none out of the listing with
    [include_deleted]: the count under the filter [{"deleted": False}]
    drops by one and the count under [{}] stays. *)
Theorem soft_delete_listing_totals
    (c : list dict) (todo_id : string) (obj_id : ObjectId.t) (d : dict)
    (now : datetime) :
  ObjectId.parse todo_id = Some obj_id →
  Collection.find_one {[ "_id" := VOid obj_id ]} c = Some d →
  d !! "deleted" = Some (VBool false) →
  let c' := (delete_todo todo_id false now c).2 in
  Collection.count_documents {[ "deleted" := VBool false ]} c'
  = Collection.count_documents {[ "deleted" := VBool false ]} c - 1
  ∧ Collection.count_documents ∅ c' = Collection.count_documents ∅ c.
Proof.
  intros Hparse Hfind Hactive.
  destruct (delete_todo_soft c todo_id obj_id d now Hparse Hfind)
    as (c1 & c2 & Hc & Hc1 & Hid & Hrun).
  rewrite Hrun. cbn [snd]. subst c.
  destruct (soft_delete_set_lookup d now) as (Hdel & _ & _).
  set (d1 := ({[ "deleted" := VBool true; "deleted_at" := VDate now ]} : dict) ∪ d)
    in *.
  assert (Collection.matches {[ "deleted" := VBool false ]} d = true) as Hd
    by (by apply matches_not_deleted).
  assert (Collection.matches {[ "deleted" := VBool false ]} d1 = false) as Hd1.
  { apply not_true_is_false. intros Hm. apply matches_not_deleted in Hm.
    congruence. }
  unfold Collection.count_documents, Collection.find.
  rewrite !List.filter_app. cbn [List.filter].
  rewrite Hd, Hd1, !matches_all, !length_app. cbn [length]. lia.
Qed.

Lemma soft_delete_listing_totals_witness :
  let c' := (delete_todo id1 false evening pantry).2 in
  Collection.count_documents {[ "deleted" := VBool false ]} c'
  = Collection.count_documents {[ "deleted" := VBool false ]} pantry - 1
  ∧ Collection.count_documents ∅ c' = Collection.count_documents ∅ pantry.
Proof.
  apply (soft_delete_listing_totals pantry id1 1%N milk evening).
  - reflexivity.
  - reflexivity.
  - reflexivity.
Defined.

(** ** Fields no handler writes *)

Lemma find_one_after_update_one (v : pyval) (q upd : dict) (c : list dict)
    (d' : dict) :
  upd !! "_id" = None →
  Collection.find_one {[ "_id" := v ]} (Collection.update_one q upd c) = Some d' →
  ∃ d, Collection.find_one {[ "_id" := v ]} c = Some d
       ∧ (d' = d ∨ d' = upd ∪ d).
Proof.
  intros Hupd. unfold Collection.find_one, Collection.find.
  induction c as [|x c IH]; [done|]. cbn [Collection.update_one].
  assert (Collection.matches {[ "_id" := v ]} (upd ∪ x)
          = Collection.matches {[ "_id" := v ]} x) as Hsame.
  { unfold Collection.matches. apply bool_decide_ext.
    rewrite !map_singleton_subseteq_l. by rewrite lookup_union_r. }
  destruct (Collection.matches q x); cbn [List.filter].
  - rewrite Hsame. destruct (Collection.matches {[ "_id" := v ]} x).
    + intros [= <-]. exists x. auto.
    + intros Hd'. exists d'. auto.
  - destruct (Collection.matches {[ "_id" := v ]} x).
    + intros [= <-]. exists x. auto.
    + apply IH.
Qed.

Lemma find_one_after_delete_one (v : pyval) (q : dict) (c : list dict)
    (d' : dict) :
  NoDup (ids c) →
  Collection.find_one {[ "_id" := v ]} (Collection.delete_one q c) = Some d' →
  Collection.find_one {[ "_id" := v ]} c = Some d'.
Proof.
  induction c as [|x c IH]; [done|]. intros Hnodup.
  cbn [Collection.delete_one].
  assert (NoDup (ids c)) as Hc by (by apply NoDup_cons in Hnodup as [_ ?]).
  destruct (Collection.matches {[ "_id" := v ]} x) eqn:Hx.
  - destruct (Collection.matches q x).
    + intros Hd'. exfalso.
      apply find_one_Some in Hd' as (c1 & c2 & -> & _ & Hd').
      apply matches_id in Hx, Hd'.
      apply NoDup_cons in Hnodup as [Hnotin _]. apply Hnotin.
      unfold ids. rewrite Hx, <- Hd'. apply list_elem_of_fmap.
      exists d'. split; [done|]. apply elem_of_app. right. by left.
    + unfold Collection.find_one, Collection.find. cbn [List.filter].
      by rewrite Hx.
  - destruct (Collection.matches q x).
    + intros Hd'. unfold Collection.find_one, Collection.find in *.
      cbn [List.filter]. by rewrite Hx.
    + unfold Collection.find_one, Collection.find in *.
      cbn [List.filter]. rewrite Hx. by apply IH.
Qed.

(** X20. No handler rewrites a record's identity or its [created_at]
    (nor any field outside [title], [description], [completed],
    [updated_at], [deleted], [deleted_at]): in a collection with unique
    identities, a record found under an id before a call and still
    found under it after the call has the same value in every such
    field. *)
Theorem handlers_keep_other_fields
    (op : call) (now : datetime) (c : list dict) (v : pyval) (d d' : dict) :
  NoDup (ids c) →
  Collection.find_one {[ "_id" := v ]} c = Some d →
  Collection.find_one {[ "_id" := v ]} (perform op now c) = Some d' →
  d' !! "_id" = d !! "_id"
  ∧ d' !! "created_at" = d !! "created_at"
  ∧ ∀ k, k ∉ ["title"; "description"; "completed"; "updated_at";
              "deleted"; "deleted_at"] → d' !! k = d !! k.
Proof.
  intros Hnodup Hfind Hfind'.
  assert (∀ k, k ∉ ["title"; "description"; "completed"; "updated_at";
                    "deleted"; "deleted_at"] → d' !! k = d !! k) as Hframe.
  { destruct (perform_writes op now c)
      as [Heq|[(stored & Heq & _)|[[q Heq]|(q & upd & Heq & Hupd)]]];
      rewrite Heq in Hfind'.
    - intros k _. congruence.
    - apply find_one_Some in Hfind as (c1 & c2 & -> & Hc1 & Hd).
      rewrite <- (assoc_L (++)) in Hfind'. cbn [app] in Hfind'.
      rewrite find_one_at in Hfind' by done. intros k _. congruence.
    - apply find_one_after_delete_one in Hfind'; [|done].
      intros k _. congruence.
    - assert (upd !! "_id" = None) as Hupd_id by (apply Hupd; not_in_keys).
      apply (find_one_after_update_one _ _ _ _ _ Hupd_id) in Hfind'
        as (d0 & Hd0 & [->| ->]).
      + intros k _. congruence.
      + intros k Hk. rewrite lookup_union_r by (by apply Hupd). congruence. }
  split; [apply Hframe; not_in_keys|].
  split; [apply Hframe; not_in_keys|done].
Qed.

Lemma handlers_keep_other_fields_witness :
  ∃ d', Collection.find_one {[ "_id" := VOid 1 ]}
          (perform (UpdateTodo id1 done_null_description) evening pantry)
        = Some d'
    ∧ d' !! "_id" = milk !! "_id"
    ∧ d' !! "created_at" = milk !! "created_at"
    ∧ ∀ k, k ∉ ["title"; "description"; "completed"; "updated_at";
                "deleted"; "deleted_at"] → d' !! k = milk !! k.
Proof.
  eexists. split; [reflexivity|].
  apply (handlers_keep_other_fields (UpdateTodo id1 done_null_description)
           evening pantry (VOid 1) milk).
  - apply (bool_decide_unpack _). vm_compute. exact I.
  - reflexivity.
  - reflexivity.
Defined.
